(** * Device-identity resolution: a shallow embedding of
      [scripts/smart_mac_tracking.py] (class [SmartMACTracker]) and
      [scripts/mac_filtering.py] (class [MobilePhoneDetector]).

    Conventions of the embedding.
    - Python [str] values are [string]s of ASCII characters.
    - Python [int] is [Z].
    - Python [float] is idealised: exact rationals [Q] in the tracker,
      whose arithmetic only adds, divides and compares, and real numbers
      [R] in the detector, whose standard deviation takes a square root.
      Rounding and overflow are not modelled.
    - [datetime.now()] is an explicit argument [now] of every operation
      that reads the clock.
    - Instance attributes that the methods mutate are fields of a state
      record which every method takes and returns.
    - A raised exception is a value of [outcome]. *)

From Stdlib Require Import ZArith QArith Qminmax Reals Lra Lia Bool.
From Stdlib Require Import String Ascii List.
From Stdlib Require Strings.Byte.
From stdpp Require Import gmap strings list.
Import ListNotations.

Local Open Scope string_scope.
Local Open Scope list_scope.

(** ** Python built-ins used by the two modules *)

Module Py.

Inductive exc : Type :=
| IndexError
| ValueError
| KeyError.

Inductive outcome (A : Type) : Type :=
| Ok (a : A)
| Raise (e : exc).
Arguments Ok {A} a.
Arguments Raise {A} e.

#[export] Instance outcome_ret : MRet outcome := fun A a => Ok a.

#[export] Instance outcome_bind : MBind outcome := fun A B k m =>
  match m with
  | Ok a => k a
  | Raise e => Raise e
  end.

(** [any(f(x) for f in fs)]: the generator is consumed from the left and
    stops at the first true value; an exception raised on the way escapes. *)
Fixpoint any_of {A : Type} (fs : list (A -> outcome bool)) (x : A) : outcome bool :=
  match fs with
  | [] => Ok false
  | f :: fs' =>
      f x ≫= λ b : bool, if b then Ok true else any_of fs' x
  end.

(** *** Strings *)

Definition is_lower (c : ascii) : bool :=
  let n := nat_of_ascii c in (97 <=? n)%nat && (n <=? 122)%nat.

Definition upper_char (c : ascii) : ascii :=
  if is_lower c then ascii_of_nat (nat_of_ascii c - 32) else c.

(** [s.upper()] *)
Fixpoint upper (s : string) : string :=
  match s with
  | EmptyString => EmptyString
  | String c s' => String (upper_char c) (upper s')
  end.

(** [s.replace(c, '')] for a one-character [c] *)
Fixpoint remove_char (c : ascii) (s : string) : string :=
  match s with
  | EmptyString => EmptyString
  | String d s' =>
      if Ascii.eqb c d then remove_char c s' else String d (remove_char c s')
  end.

(** [s[:n]] *)
Fixpoint take_str (n : nat) (s : string) : string :=
  match n, s with
  | S n', String c s' => String c (take_str n' s')
  | _, _ => EmptyString
  end.

(** [s[n:]] *)
Fixpoint drop_str (n : nat) (s : string) : string :=
  match n, s with
  | S n', String _ s' => drop_str n' s'
  | _, _ => s
  end.

(** [s[a:b]] for [0 <= a <= b] *)
Definition slice (a b : nat) (s : string) : string := take_str (b - a) (drop_str a s).

(** [s[i]] for [i >= 0] *)
Definition index (i : nat) (s : string) : outcome ascii :=
  match String.get i s with
  | Some c => Ok c
  | None => Raise IndexError
  end.

(** [s.startswith(p)] *)
Definition startswith (p s : string) : bool := String.prefix p s.

(** [s.startswith((p1, ..., pn))] *)
Definition startswith_any (ps : list string) (s : string) : bool :=
  existsb (fun p => startswith p s) ps.

(** [s.split(c)[0]]: the text before the first [c], all of [s] without one *)
Fixpoint split_head (c : ascii) (s : string) : string :=
  match s with
  | EmptyString => EmptyString
  | String d s' => if Ascii.eqb c d then EmptyString else String d (split_head c s')
  end.

(** *** [int(s, 16)] on ASCII text

    Value of one character as a digit in base 16. *)
Definition hex_value (c : ascii) : option Z :=
  let n := nat_of_ascii c in
  if (48 <=? n)%nat && (n <=? 57)%nat then Some (Z.of_nat (n - 48))
  else if (65 <=? n)%nat && (n <=? 70)%nat then Some (Z.of_nat (n - 55))
  else if (97 <=? n)%nat && (n <=? 102)%nat then Some (Z.of_nat (n - 87))
  else None.

Definition is_space (c : ascii) : bool :=
  let n := nat_of_ascii c in
  ((9 <=? n)%nat && (n <=? 13)%nat) || (n =? 32)%nat.

Fixpoint lstrip (s : string) : string :=
  match s with
  | String c s' => if is_space c then lstrip s' else s
  | EmptyString => EmptyString
  end.

Fixpoint all_space (s : string) : bool :=
  match s with
  | EmptyString => true
  | String c s' => is_space c && all_space s'
  end.

(** Digits with single underscores between them, then optional white
    space to the end. [acc] is the value read so far, [seen] tells whether
    a digit has been read, [prev_us] whether the previous character was an
    underscore. *)
Fixpoint digits16 (acc : Z) (seen prev_us : bool) (s : string) : option Z :=
  match s with
  | EmptyString => if seen && negb prev_us then Some acc else None
  | String c s' =>
      match hex_value c with
      | Some d => digits16 (16 * acc + d) true false s'
      | None =>
          if Ascii.eqb c "_" then
            if seen && negb prev_us then digits16 acc seen true s' else None
          else if seen && negb prev_us && all_space s then Some acc
          else None
      end
  end.

Definition strip_sign (s : string) : bool * string :=
  match s with
  | String "+" s' => (false, s')
  | String "-" s' => (true, s')
  | _ => (false, s)
  end.

Definition strip_0x (s : string) : string :=
  match s with
  | String "0" (String "x" s') | String "0" (String "X" s') =>
      match s' with
      | String "_" s'' => s''
      | _ => s'
      end
  | _ => s
  end.

(** [int(s, 16)]; [ValueError] when [s] is not a base-16 literal. *)
Definition int16 (s : string) : outcome Z :=
  let (neg, body) := strip_sign (lstrip s) in
  match digits16 0 false false (strip_0x body) with
  | Some v => Ok (if neg then - v else v)%Z
  | None => Raise ValueError
  end.

(** Text within the embedding's reach: every character is an ASCII
    character. On other text [str.upper] and [int] act on code points that
    the definitions above do not describe. *)
Fixpoint ascii_text (s : string) : bool :=
  match s with
  | EmptyString => true
  | String c s' => (nat_of_ascii c <? 128)%nat && ascii_text s'
  end.

(** *** [s.split()[0]] and [c in s]

    White space as [str.split()] without arguments sees it in ASCII. *)
Definition is_space_str (c : ascii) : bool :=
  let n := nat_of_ascii c in
  ((9 <=? n)%nat && (n <=? 13)%nat) || ((28 <=? n)%nat && (n <=? 32)%nat).

Fixpoint lstrip_ws (s : string) : string :=
  match s with
  | String c s' => if is_space_str c then lstrip_ws s' else s
  | EmptyString => EmptyString
  end.

Fixpoint until_ws (s : string) : string :=
  match s with
  | String c s' => if is_space_str c then EmptyString else String c (until_ws s')
  | EmptyString => EmptyString
  end.

(** [s.split()[0]]: the first word; [IndexError] when [s] has none. *)
Definition first_word (s : string) : outcome string :=
  match lstrip_ws s with
  | EmptyString => Raise IndexError
  | String c s' => Ok (until_ws (String c s'))
  end.

(** [c in s] for a one-character [c] *)
Fixpoint contains_char (c : ascii) (s : string) : bool :=
  match s with
  | EmptyString => false
  | String d s' => Ascii.eqb c d || contains_char c s'
  end.

End Py.

Import Py.

(** *** Lists *)

(** [l[-n:]] for [n > 0]: the last [n] elements, all of [l] when it is
    shorter. *)
Definition lastn {A : Type} (n : nat) (l : list A) : list A :=
  drop (length l - n) l.

(** [sum(l)] over integers *)
Definition zsum (l : list Z) : Z := fold_left Z.add l 0%Z.

(** A dictionary display [{k1: v1, ..., kn: vn}] read only by key: the
    items are stored from left to right, so a repeated key keeps the value
    written last. *)
Definition dict_display {V : Type} (items : list (string * V)) : gmap string V :=
  fold_left (fun m kv => <[kv.1 := kv.2]> m) items ∅.

(** ** MAC addresses as data

    A MAC address is six octets; its canonical text is six pairs of
    upper-case hexadecimal digits separated by colons. *)

Module Mac.

Record t : Type := Make {
  o1 : Byte.byte; o2 : Byte.byte; o3 : Byte.byte;
  o4 : Byte.byte; o5 : Byte.byte; o6 : Byte.byte
}.

Definition hex_digit (n : nat) : ascii :=
  match String.get n "0123456789ABCDEF" with
  | Some c => c
  | None => "0"%char
  end.

(** High and low digit of an octet. *)
Definition hi (b : Byte.byte) : ascii := hex_digit (Byte.to_nat b / 16).
Definition lo (b : Byte.byte) : ascii := hex_digit (Byte.to_nat b mod 16).

(** The two digits of an octet, put in front of [rest]. *)
Definition digits (b : Byte.byte) (rest : string) : string :=
  String (hi b) (String (lo b) rest).

Definition octet_hex (b : Byte.byte) : string := digits b EmptyString.

Definition octet_value (b : Byte.byte) : Z := Z.of_nat (Byte.to_nat b).

Definition colon (rest : string) : string := String ":" rest.

(** ["XX:XX:XX:XX:XX:XX"] *)
Definition to_string (m : t) : string :=
  digits (o1 m) (colon (digits (o2 m) (colon (digits (o3 m) (colon
    (digits (o4 m) (colon (digits (o5 m) (colon (digits (o6 m) EmptyString)))))))))).

(** The first three octets, written ["XX:XX:XX"] as the keys of the
    detector's OUI tables are. *)
Definition oui_colon (m : t) : string :=
  digits (o1 m) (colon (digits (o2 m) (colon (digits (o3 m) EmptyString)))).

(** The first three octets, written ["XXXXXX"] as the entries of the
    tracker's manufacturer table are. *)
Definition oui_plain (m : t) : string :=
  digits (o1 m) (digits (o2 m) (digits (o3 m) EmptyString)).

Definition first_octet (m : t) : Z := octet_value (o1 m).

(** Bit [0x02] of the first octet. *)
Definition locally_administered (m : t) : bool := Z.testbit (first_octet m) 1.

Definition is_hex (c : ascii) : bool :=
  match hex_value c with Some _ => true | None => false end.

(** The format of a MAC address in text: six pairs of hexadecimal digits
    (either case) with a colon between two pairs. *)
Fixpoint pairs_colon (n : nat) (s : string) : bool :=
  match n, s with
  | 1%nat, String a (String b EmptyString) => is_hex a && is_hex b
  | S n', String a (String b (String ":" s')) =>
      is_hex a && is_hex b && pairs_colon n' s'
  | _, _ => false
  end.

Definition well_formed (s : string) : bool := pairs_colon 6 s.

(** The same address written with dashes, ["XX-XX-XX-XX-XX-XX"]. *)
Definition dash (rest : string) : string := String "-" rest.

Definition to_string_dashed (m : t) : string :=
  digits (o1 m) (dash (digits (o2 m) (dash (digits (o3 m) (dash
    (digits (o4 m) (dash (digits (o5 m) (dash (digits (o6 m) EmptyString)))))))))).

End Mac.

(** ** [mac_filtering.py]: class [MobilePhoneDetector] *)

Module MobilePhoneDetector.

Local Open Scope R_scope.

Record DeviceInfo : Type := {
  mac : string;
  vendor : string;
  device_type : string;
  confidence : R;
  first_seen : Z;
  signal_pattern : list Z;
  behavior_score : R
}.

(** The text [is_mobile_device] returns as third component: a literal or a
    table entry, or the f-string
    [f"Unknown Mobile (Behavior Score: {confidence:.2f})"], kept with the
    number it formats. *)
Inductive label : Type :=
| Text (s : string)
| UnknownMobile (confidence : R).

(** The dictionary display returned by [_load_mobile_ouis], in source
    order. *)
Definition mobile_oui_items : list (string * string) :=
  [ ("00:03:93", "Apple iPhone"); ("00:0A:95", "Apple iPhone");
    ("00:17:F2", "Apple iPhone"); ("00:1B:63", "Apple iPhone");
    ("00:1E:C2", "Apple iPhone"); ("00:23:12", "Apple iPhone");
    ("00:25:BC", "Apple iPhone"); ("00:26:08", "Apple iPhone");
    ("04:0C:CE", "Apple iPhone"); ("04:15:52", "Apple iPhone");
    ("04:1E:64", "Apple iPhone"); ("04:69:F2", "Apple iPhone");
    ("04:DB:56", "Apple iPhone"); ("04:F7:E4", "Apple iPhone");
    ("08:00:07", "Apple iPhone"); ("0C:3E:9F", "Apple iPhone");
    ("0C:74:C2", "Apple iPhone"); ("10:40:F3", "Apple iPhone");
    ("14:20:5E", "Apple iPhone"); ("14:7D:DA", "Apple iPhone");
    ("18:AF:8F", "Apple iPhone"); ("1C:AB:A7", "Apple iPhone");
    ("20:A2:E4", "Apple iPhone"); ("24:A0:74", "Apple iPhone");
    ("28:37:37", "Apple iPhone"); ("2C:1F:23", "Apple iPhone");
    ("30:35:AD", "Apple iPhone"); ("30:90:AB", "Apple iPhone");
    ("34:A3:95", "Apple iPhone"); ("38:B5:4D", "Apple iPhone");
    ("3C:2E:FF", "Apple iPhone"); ("40:83:DE", "Apple iPhone");
    ("44:4C:0C", "Apple iPhone"); ("48:74:6E", "Apple iPhone");
    ("4C:3C:16", "Apple iPhone"); ("50:ED:3C", "Apple iPhone");
    ("54:72:4F", "Apple iPhone"); ("58:55:CA", "Apple iPhone");
    ("5C:95:AE", "Apple iPhone"); ("60:F4:45", "Apple iPhone");
    ("64:B0:A6", "Apple iPhone"); ("68:AE:20", "Apple iPhone");
    ("6C:72:20", "Apple iPhone"); ("70:1C:E7", "Apple iPhone");
    ("74:E2:F5", "Apple iPhone"); ("78:4F:43", "Apple iPhone");
    ("7C:6D:62", "Apple iPhone"); ("80:BE:05", "Apple iPhone");
    ("84:38:35", "Apple iPhone"); ("88:66:5A", "Apple iPhone");
    ("8C:85:90", "Apple iPhone"); ("90:72:40", "Apple iPhone");
    ("94:E9:6A", "Apple iPhone"); ("98:FE:94", "Apple iPhone");
    ("9C:04:EB", "Apple iPhone"); ("A0:99:9B", "Apple iPhone");
    ("A4:5E:60", "Apple iPhone"); ("A8:51:AB", "Apple iPhone");
    ("AC:87:A3", "Apple iPhone"); ("B0:65:BD", "Apple iPhone");
    ("B4:F0:AB", "Apple iPhone"); ("B8:78:2E", "Apple iPhone");
    ("BC:3B:AF", "Apple iPhone"); ("C0:9A:D0", "Apple iPhone");
    ("C4:B3:01", "Apple iPhone"); ("C8:2A:14", "Apple iPhone");
    ("CC:25:EF", "Apple iPhone"); ("D0:23:DB", "Apple iPhone");
    ("D4:90:9C", "Apple iPhone"); ("D8:1D:72", "Apple iPhone");
    ("DC:2B:2A", "Apple iPhone"); ("E0:AC:CB", "Apple iPhone");
    ("E4:8B:7F", "Apple iPhone"); ("E8:80:2E", "Apple iPhone");
    ("EC:35:86", "Apple iPhone"); ("F0:24:75", "Apple iPhone");
    ("F4:F1:5A", "Apple iPhone"); ("F8:27:93", "Apple iPhone");
    ("FC:25:3F", "Apple iPhone"); ("00:07:AB", "Samsung Android");
    ("00:0E:07", "Samsung Android"); ("00:12:47", "Samsung Android");
    ("00:15:99", "Samsung Android"); ("00:16:32", "Samsung Android");
    ("00:17:C9", "Samsung Android"); ("00:1A:8A", "Samsung Android");
    ("00:1D:25", "Samsung Android"); ("00:1E:E1", "Samsung Android");
    ("00:21:19", "Samsung Android"); ("00:23:39", "Samsung Android");
    ("00:26:37", "Samsung Android"); ("04:18:D6", "Samsung Android");
    ("08:37:3D", "Samsung Android"); ("0C:14:20", "Samsung Android");
    ("0C:89:10", "Samsung Android"); ("10:1D:C0", "Samsung Android");
    ("14:7F:3C", "Samsung Android"); ("18:3A:2D", "Samsung Android");
    ("1C:5A:3E", "Samsung Android"); ("20:13:E0", "Samsung Android");
    ("24:4B:81", "Samsung Android"); ("28:39:26", "Samsung Android");
    ("2C:44:01", "Samsung Android"); ("30:07:4D", "Samsung Android");
    ("34:23:87", "Samsung Android"); ("38:AA:3C", "Samsung Android");
    ("3C:5A:B4", "Samsung Android"); ("40:0E:85", "Samsung Android");
    ("44:00:10", "Samsung Android"); ("48:5A:3F", "Samsung Android");
    ("4C:BC:42", "Samsung Android"); ("50:CC:F8", "Samsung Android");
    ("54:88:0E", "Samsung Android"); ("58:1F:AA", "Samsung Android");
    ("5C:0A:5B", "Samsung Android"); ("60:6B:BD", "Samsung Android");
    ("64:16:66", "Samsung Android"); ("68:EB:C5", "Samsung Android");
    ("6C:2F:2C", "Samsung Android"); ("70:F9:27", "Samsung Android");
    ("74:45:8A", "Samsung Android"); ("78:25:AD", "Samsung Android");
    ("7C:61:66", "Samsung Android"); ("80:57:19", "Samsung Android");
    ("84:25:3F", "Samsung Android"); ("88:32:9B", "Samsung Android");
    ("8C:77:12", "Samsung Android"); ("90:18:7C", "Samsung Android");
    ("94:35:0A", "Samsung Android"); ("98:52:3D", "Samsung Android");
    ("9C:28:EF", "Samsung Android"); ("A0:21:B7", "Samsung Android");
    ("A4:EB:D3", "Samsung Android"); ("A8:DB:03", "Samsung Android");
    ("AC:5F:3E", "Samsung Android"); ("B0:72:BF", "Samsung Android");
    ("B4:62:93", "Samsung Android"); ("B8:5E:7B", "Samsung Android");
    ("BC:14:85", "Samsung Android"); ("C0:BD:D1", "Samsung Android");
    ("C4:42:02", "Samsung Android"); ("C8:BA:94", "Samsung Android");
    ("CC:07:AB", "Samsung Android"); ("D0:17:6A", "Samsung Android");
    ("D4:87:D8", "Samsung Android"); ("D8:90:E8", "Samsung Android");
    ("DC:71:96", "Samsung Android"); ("E0:91:F5", "Samsung Android");
    ("E4:32:CB", "Samsung Android"); ("E8:50:8B", "Samsung Android");
    ("EC:1F:72", "Samsung Android"); ("F0:25:B7", "Samsung Android");
    ("F4:0F:24", "Samsung Android"); ("F8:04:2E", "Samsung Android");
    ("FC:A6:21", "Samsung Android"); ("00:1A:11", "Google Pixel");
    ("04:C0:6F", "Google Pixel"); ("5C:51:4F", "Google Pixel");
    ("64:C5:AA", "Google Pixel"); ("8C:85:90", "Google Pixel");
    ("AC:37:43", "Google Pixel"); ("B4:77:39", "Google Pixel");
    ("C4:43:8F", "Google Pixel"); ("DC:2B:61", "Google Pixel");
    ("F8:8F:CA", "Google Pixel"); ("00:18:82", "Huawei Android");
    ("00:1E:10", "Huawei Android"); ("00:25:9E", "Huawei Android");
    ("04:BD:88", "Huawei Android"); ("08:7A:4C", "Huawei Android");
    ("0C:96:BF", "Huawei Android"); ("10:1F:74", "Huawei Android");
    ("14:F6:D8", "Huawei Android"); ("18:4F:32", "Huawei Android");
    ("1C:1D:67", "Huawei Android"); ("20:F3:A3", "Huawei Android");
    ("24:09:95", "Huawei Android"); ("28:C6:8E", "Huawei Android");
    ("2C:AB:25", "Huawei Android"); ("30:B4:9E", "Huawei Android");
    ("34:6B:D3", "Huawei Android"); ("38:BC:01", "Huawei Android");
    ("3C:8B:FE", "Huawei Android"); ("40:4D:8E", "Huawei Android");
    ("44:6D:6C", "Huawei Android"); ("48:DB:50", "Huawei Android");
    ("4C:54:99", "Huawei Android"); ("50:8F:4C", "Huawei Android");
    ("54:25:EA", "Huawei Android"); ("58:2A:F7", "Huawei Android");
    ("5C:C9:D3", "Huawei Android"); ("60:DE:44", "Huawei Android");
    ("64:3E:8C", "Huawei Android"); ("68:13:E2", "Huawei Android");
    ("6C:E8:73", "Huawei Android"); ("70:72:3C", "Huawei Android");
    ("74:A7:22", "Huawei Android"); ("78:D6:F0", "Huawei Android");
    ("7C:B2:1B", "Huawei Android"); ("80:38:BC", "Huawei Android");
    ("84:A4:23", "Huawei Android"); ("88:E3:AB", "Huawei Android");
    ("8C:34:FD", "Huawei Android"); ("90:67:1C", "Huawei Android");
    ("94:04:9C", "Huawei Android"); ("98:54:1B", "Huawei Android");
    ("9C:28:BF", "Huawei Android"); ("A0:8C:FD", "Huawei Android");
    ("A4:50:46", "Huawei Android"); ("A8:1E:84", "Huawei Android");
    ("AC:E2:D3", "Huawei Android"); ("B0:E2:35", "Huawei Android");
    ("B4:CD:27", "Huawei Android"); ("B8:08:CF", "Huawei Android");
    ("BC:25:E5", "Huawei Android"); ("C0:EE:40", "Huawei Android");
    ("C4:0B:CB", "Huawei Android"); ("C8:14:79", "Huawei Android");
    ("CC:B1:1A", "Huawei Android"); ("D0:7E:35", "Huawei Android");
    ("D4:6A:6A", "Huawei Android"); ("D8:49:2F", "Huawei Android");
    ("DC:D8:9D", "Huawei Android"); ("E0:19:1D", "Huawei Android");
    ("E4:58:B8", "Huawei Android"); ("E8:CD:2D", "Huawei Android");
    ("EC:23:3D", "Huawei Android"); ("F0:79:59", "Huawei Android");
    ("F4:28:53", "Huawei Android"); ("F8:98:B9", "Huawei Android");
    ("FC:48:EF", "Huawei Android"); ("00:90:E6", "OnePlus Android");
    ("08:05:81", "OnePlus Android"); ("0C:8D:DB", "OnePlus Android");
    ("10:68:3F", "OnePlus Android"); ("14:D1:27", "OnePlus Android");
    ("18:4A:AE", "OnePlus Android"); ("1C:B0:94", "OnePlus Android");
    ("20:68:9D", "OnePlus Android"); ("24:CF:24", "OnePlus Android");
    ("28:E1:4C", "OnePlus Android"); ("2C:F4:32", "OnePlus Android");
    ("30:E1:71", "OnePlus Android"); ("34:97:F6", "OnePlus Android");
    ("38:A4:ED", "OnePlus Android"); ("3C:BD:3E", "OnePlus Android");
    ("40:B0:76", "OnePlus Android"); ("44:91:60", "OnePlus Android");
    ("48:C1:AC", "OnePlus Android"); ("4C:49:E3", "OnePlus Android");
    ("50:8A:06", "OnePlus Android"); ("54:E4:3A", "OnePlus Android");
    ("58:CB:52", "OnePlus Android"); ("5C:A6:E6", "OnePlus Android");
    ("60:AB:14", "OnePlus Android"); ("64:BC:0C", "OnePlus Android");
    ("68:EB:AE", "OnePlus Android"); ("6C:24:08", "OnePlus Android");
    ("70:4A:0E", "OnePlus Android"); ("74:4C:A1", "OnePlus Android");
    ("78:2B:CB", "OnePlus Android"); ("7C:1C:4E", "OnePlus Android");
    ("80:7A:BF", "OnePlus Android"); ("84:C7:EA", "OnePlus Android");
    ("88:83:5D", "OnePlus Android"); ("8C:1A:B0", "OnePlus Android");
    ("90:E8:68", "OnePlus Android"); ("94:65:9C", "OnePlus Android");
    ("98:22:EF", "OnePlus Android"); ("9C:07:A3", "OnePlus Android");
    ("A0:C5:89", "OnePlus Android"); ("A4:34:D9", "OnePlus Android");
    ("A8:26:D9", "OnePlus Android"); ("AC:22:0B", "OnePlus Android");
    ("B0:A7:37", "OnePlus Android"); ("B4:52:7E", "OnePlus Android");
    ("B8:9A:2A", "OnePlus Android"); ("BC:25:E5", "OnePlus Android");
    ("C0:05:C2", "OnePlus Android"); ("C4:07:2F", "OnePlus Android");
    ("C8:FF:77", "OnePlus Android"); ("CC:15:31", "OnePlus Android");
    ("D0:53:49", "OnePlus Android"); ("D4:6E:0E", "OnePlus Android");
    ("D8:55:A3", "OnePlus Android"); ("DC:91:A7", "OnePlus Android");
    ("E0:B9:4D", "OnePlus Android"); ("E4:42:A6", "OnePlus Android");
    ("E8:92:A4", "OnePlus Android"); ("EC:F4:BB", "OnePlus Android");
    ("F0:27:2D", "OnePlus Android"); ("F4:0E:22", "OnePlus Android");
    ("F8:63:3F", "OnePlus Android"); ("FC:05:A6", "OnePlus Android") ].

(** The dictionary display returned by [_load_infrastructure_ouis], in
    source order. *)
Definition infrastructure_oui_items : list (string * string) :=
  [ ("00:00:0C", "Cisco Router/Switch"); ("00:01:42", "Cisco Router/Switch");
    ("00:01:43", "Cisco Router/Switch"); ("00:01:96", "Cisco Router/Switch");
    ("00:01:97", "Cisco Router/Switch"); ("00:02:16", "Cisco Router/Switch");
    ("00:02:17", "Cisco Router/Switch"); ("00:02:4A", "Cisco Router/Switch");
    ("00:02:4B", "Cisco Router/Switch"); ("00:02:B9", "Cisco Router/Switch");
    ("00:02:BA", "Cisco Router/Switch"); ("00:03:31", "Cisco Router/Switch");
    ("00:03:32", "Cisco Router/Switch"); ("00:03:6B", "Cisco Router/Switch");
    ("00:03:6C", "Cisco Router/Switch"); ("00:03:A0", "Cisco Router/Switch");
    ("00:03:E3", "Cisco Router/Switch"); ("00:03:FD", "Cisco Router/Switch");
    ("00:03:FE", "Cisco Router/Switch"); ("00:04:27", "Cisco Router/Switch");
    ("00:04:28", "Cisco Router/Switch"); ("00:04:4D", "Cisco Router/Switch");
    ("00:04:6D", "Cisco Router/Switch"); ("00:04:9A", "Cisco Router/Switch");
    ("00:04:C0", "Cisco Router/Switch"); ("00:04:C1", "Cisco Router/Switch");
    ("00:04:DD", "Cisco Router/Switch"); ("04:18:D6", "Ubiquiti UniFi AP");
    ("18:E8:29", "Ubiquiti UniFi AP"); ("24:5A:4C", "Ubiquiti UniFi AP");
    ("44:D9:E7", "Ubiquiti UniFi AP"); ("68:72:51", "Ubiquiti UniFi AP");
    ("74:83:C2", "Ubiquiti UniFi AP"); ("78:8A:20", "Ubiquiti UniFi AP");
    ("80:2A:A8", "Ubiquiti UniFi AP"); ("B4:FB:E4", "Ubiquiti UniFi AP");
    ("DC:9F:DB", "Ubiquiti UniFi AP"); ("E4:38:83", "Ubiquiti UniFi AP");
    ("F0:9F:C2", "Ubiquiti UniFi AP"); ("FC:EC:DA", "Ubiquiti UniFi AP");
    ("14:CC:20", "TP-Link Router/AP"); ("50:C7:BF", "TP-Link Router/AP");
    ("60:E3:27", "TP-Link Router/AP"); ("6C:5A:B0", "TP-Link Router/AP");
    ("84:16:F9", "TP-Link Router/AP"); ("A0:F3:C1", "TP-Link Router/AP");
    ("B0:4E:26", "TP-Link Router/AP"); ("C0:25:A2", "TP-Link Router/AP");
    ("E8:DE:27", "TP-Link Router/AP"); ("F4:EC:38", "TP-Link Router/AP");
    ("B8:27:EB", "Raspberry Pi"); ("DC:A6:32", "Raspberry Pi");
    ("E4:5F:01", "Raspberry Pi"); ("00:13:A2", "Digi XBee");
    ("00:50:C2", "IEEE 802.11 devices"); ("02:00:00", "Private/Random MAC");
    ("00:0E:8E", "Rajant Mesh Node"); ("00:1C:9E", "Rajant Mesh Node");
    ("00:24:7E", "Rajant Mesh Node") ].

Definition mobile_ouis : gmap string string := dict_display mobile_oui_items.

Definition infrastructure_ouis : gmap string string :=
  dict_display infrastructure_oui_items.

(** [self.config], never written after [__init__]. *)
Definition signal_variance_threshold : R := 10.
Definition min_confidence_score : R := 0.7.

(** The one attribute the methods write: [self.device_history]. *)
Record state : Type := {
  device_history : gmap string DeviceInfo
}.

Definition init : state := {| device_history := ∅ |}.

Definition get_oui (mac : string) : string :=
  take_str 6 (remove_char "-" (remove_char ":" (upper mac))).

Definition format_oui (oui : string) : string :=
  slice 0 2 oui ++ ":" ++ slice 2 4 oui ++ ":" ++ slice 4 6 oui.

(** The bare [except:] turns every failure of [int] into [False]. *)
Definition _is_randomized_mac (mac : string) : bool :=
  match int16 (split_head ":" mac) with
  | Ok first_octet => negb (Z.land first_octet 2 =? 0)%Z
  | Raise _ => false
  end.

Definition rsum (l : list R) : R := fold_right Rplus 0 l.

Definition _calculate_signal_variance (signals : list Z) : R :=
  if (length signals <? 2)%nat then 0
  else
    let avg := IZR (zsum signals) / INR (length signals) in
    let variance :=
      rsum (map (fun s => (IZR s - avg) ^ 2) signals) / INR (length signals) in
    sqrt variance.

Definition _calculate_behavior_score (device : DeviceInfo) : R :=
  let signal_variance := _calculate_signal_variance (signal_pattern device) in
  let movement_score := Rmin (signal_variance / 15.0) 1.0 in
  let time_score := 0.7 in
  let frequency_score := 0.6 in
  movement_score * 0.5 + time_score * 0.3 + frequency_score * 0.2.

Definition _analyze_unknown_device (st : state) (mac : string)
  : bool * R * label :=
  match device_history st !! mac with
  | None => (false, 0.3, Text "Unknown Device (Need More Data)")
  | Some device =>
      let signal_variance := _calculate_signal_variance (signal_pattern device) in
      let movement_score := Rmin (signal_variance / signal_variance_threshold) 1.0 in
      let behavior_score := behavior_score device in
      let confidence := movement_score * 0.6 + behavior_score * 0.4 in
      let is_mobile :=
        if Rlt_dec min_confidence_score confidence then true else false in
      let device_type :=
        if is_mobile then UnknownMobile confidence
        else Text "Unknown Static Device" in
      (is_mobile, confidence, device_type)
  end.

Definition is_mobile_device (st : state) (mac : string) : bool * R * label :=
  let oui := get_oui mac in
  let formatted_oui := format_oui oui in
  match mobile_ouis !! formatted_oui with
  | Some v => (true, 0.95, Text v)
  | None =>
      match infrastructure_ouis !! formatted_oui with
      | Some v => (false, 0.95, Text v)
      | None =>
          if _is_randomized_mac mac then (true, 0.8, Text "Mobile (Randomized MAC)")
          else _analyze_unknown_device st mac
      end
  end.

Definition with_signal_pattern (device : DeviceInfo) (p : list Z) : DeviceInfo :=
  {| mac := mac device; vendor := vendor device; device_type := device_type device;
     confidence := confidence device; first_seen := first_seen device;
     signal_pattern := p; behavior_score := behavior_score device |}.

Definition with_behavior_score (device : DeviceInfo) (b : R) : DeviceInfo :=
  {| mac := mac device; vendor := vendor device; device_type := device_type device;
     confidence := confidence device; first_seen := first_seen device;
     signal_pattern := signal_pattern device; behavior_score := b |}.

Definition update_device_history (st : state) (now : Z) (mac : string)
    (signal_strength : Z) (node_id : string) : state :=
  match device_history st !! mac with
  | None =>
      {| device_history :=
           <[mac := {| mac := mac; vendor := "Unknown"; device_type := "Unknown";
                       confidence := 0.0; first_seen := now;
                       signal_pattern := [signal_strength];
                       behavior_score := 0.0 |}]> (device_history st) |}
  | Some device =>
      let device := with_signal_pattern device (signal_pattern device ++ [signal_strength]) in
      let device := with_signal_pattern device (lastn 20 (signal_pattern device)) in
      let device := with_behavior_score device (_calculate_behavior_score device) in
      {| device_history := <[mac := device]> (device_history st) |}
  end.

(** One element of the list given to [filter_mobile_devices]: a
    dictionary that may have the keys ['mac'], ['signal'] and ['node']. *)
Record Detection : Type := {
  det_mac : option string;
  det_signal : option Z;
  det_node : option string
}.

(** One element of the list [filter_mobile_devices] returns: the input
    dictionary with the five keys the loop adds. *)
Record MobileInfo : Type := {
  info_device : Detection;
  info_is_mobile : bool;
  info_confidence : R;
  info_device_type : label;
  info_vendor : string;
  info_filter_reason : string
}.

(** [device_type.split()[0] if ' ' in device_type else 'Unknown']; the
    f-string starts with ["Unknown Mobile"]. *)
Definition vendor_of (device_type : label) : outcome string :=
  match device_type with
  | Text s => if contains_char " " s then first_word s else Ok "Unknown"
  | UnknownMobile _ => Ok "Unknown"
  end.

(** The loop of [filter_mobile_devices]. [device['mac']] raises
    [KeyError] on a dictionary without that key, the other two keys are
    read with [get] and a default; the history written before an exception
    stays written. *)
Fixpoint filter_loop (st : state) (now : Z) (detected_devices : list Detection)
    (mobile_devices : list MobileInfo) : state * outcome (list MobileInfo) :=
  match detected_devices with
  | [] => (st, Ok mobile_devices)
  | device :: rest =>
      match det_mac device with
      | None => (st, Raise KeyError)
      | Some mac =>
          let signal := default (-50)%Z (det_signal device) in
          let node := default "unknown" (det_node device) in
          let st := update_device_history st now mac signal node in
          let '(is_mobile, confidence, device_type) := is_mobile_device st mac in
          if is_mobile then
            match vendor_of device_type with
            | Ok vendor =>
                filter_loop st now rest
                  (mobile_devices ++
                   [{| info_device := device; info_is_mobile := true;
                       info_confidence := confidence; info_device_type := device_type;
                       info_vendor := vendor;
                       info_filter_reason := "Mobile Device Detected" |}])
            | Raise e => (st, Raise e)
            end
          else filter_loop st now rest mobile_devices
      end
  end.

Definition filter_mobile_devices (st : state) (now : Z)
    (detected_devices : list Detection) : state * outcome (list MobileInfo) :=
  filter_loop st now detected_devices [].

(** The dictionary [get_device_stats] returns. *)
Record Stats : Type := {
  total_devices_seen : nat;
  mobile_devices : nat;
  infrastructure_devices : Z;
  filter_efficiency : R
}.

Definition get_device_stats (st : state) : Stats :=
  let total_devices := size (device_history st) in
  let mobile_count :=
    length (List.filter (fun kv : string * DeviceInfo => (is_mobile_device st kv.1).1.1)
                        (map_to_list (device_history st))) in
  {| total_devices_seen := total_devices;
     mobile_devices := mobile_count;
     infrastructure_devices := (Z.of_nat total_devices - Z.of_nat mobile_count)%Z;
     filter_efficiency :=
       if (0 <? total_devices)%nat then INR mobile_count / INR total_devices else 0 |}.

End MobilePhoneDetector.

(** ** [smart_mac_tracking.py]: class [SmartMACTracker] *)

Module SmartMACTracker.

Local Open Scope Q_scope.

(** [a < b] on floats *)
Definition Qltb (a b : Q) : bool := negb (Qle_bool b a).

(** [max(a, b)]: the first argument unless the second is larger. *)
Definition py_max (a b : Q) : Q := if Qltb a b then b else a.

(** One element of a [mac_history] list:
    [{'signal': .., 'node': .., 'timestamp': ..}]. *)
Module Entry.
Record t : Type := Make { signal : Z; node : string; timestamp : Z }.
End Entry.

(** One value of [known_users]:
    [{'name': .., 'registered_at': .., 'mac_history': .., 'is_randomized': ..}]. *)
Module User.
Record t : Type := Make {
  name : string;
  registered_at : Z;
  mac_history : list string;
  is_randomized : bool
}.
End User.

Record DeviceFingerprint : Type := {
  current_mac : string;
  signal_strength : Z;
  signal_pattern : list Z;
  connection_time : Z;
  movement_pattern : list string;
  device_capabilities : list (string * string);
  vendor_info : string
}.

(** The dictionary [track_device] returns. *)
Module Result.
Record t : Type := Make {
  mac_address : string;
  identified_user : option string;
  is_randomized : bool;
  signal_strength : Z;
  node_id : string;
  timestamp : Z;
  confidence : Q;
  fingerprint : DeviceFingerprint
}.
End Result.

(** [known_users] is a [dict] that [find_potential_user_match] iterates:
    the items are kept in insertion order. *)
Fixpoint dict_get {V : Type} (k : string) (d : list (string * V)) : option V :=
  match d with
  | [] => None
  | (k', v) :: d' => if String.eqb k k' then Some v else dict_get k d'
  end.

(** [d[k] = v]: a key already present keeps its place. *)
Fixpoint dict_set {V : Type} (k : string) (v : V) (d : list (string * V))
  : list (string * V) :=
  match d with
  | [] => [(k, v)]
  | (k', v') :: d' =>
      if String.eqb k k' then (k, v) :: d' else (k', v') :: dict_set k v d'
  end.

(** The attributes the methods read or write; [device_fingerprints],
    [potential_matches] and [randomization_patterns] are never touched
    after [__init__]. *)
Record state : Type := {
  mac_history : gmap string (list Entry.t);
  known_users : list (string * User.t)
}.

Definition init : state := {| mac_history := ∅; known_users := [] |}.

Definition known_ouis : list (string * list string) :=
  [ ("Apple", ["001EC2"; "0050E4"; "001D4F"; "002608"; "0023DF"]);
    ("Samsung", ["001377"; "002566"; "001AA0"; "0021FB"]);
    ("Google", ["DA0E14"; "F4F5E8"; "3C5AB4"]) ].

Definition str_in (s : string) (l : list string) : bool :=
  existsb (String.eqb s) l.

Definition _analyze_randomness (mac_clean : string) : bool :=
  let oui := take_str 6 mac_clean in
  if negb (existsb (fun ouis => str_in oui ouis) (map snd known_ouis))
  then true
  else false.

Definition randomized_indicators : list (string -> outcome bool) :=
  [ (fun mac => index 1 mac ≫= λ c, int16 (String c EmptyString) ≫= λ v,
               Ok (negb (Z.land v 2 =? 0)%Z));
    (fun mac => Ok (startswith_any ["02"; "06"; "0A"; "0E"] mac));
    (fun mac => Ok (startswith_any ["DA"; "DE"; "D6"; "D2"] mac));
    (fun mac => Ok (_analyze_randomness mac)) ].

Definition detect_randomized_mac (mac_address : string) : outcome bool :=
  let mac_clean := upper (remove_char ":" mac_address) in
  any_of randomized_indicators mac_clean.

Definition set_user (st : state) (mac : string) (u : User.t) : state :=
  {| mac_history := mac_history st; known_users := dict_set mac u (known_users st) |}.

(** The [try] body raises only from [detect_randomized_mac]; the first
    call runs before the assignment to [known_users]. *)
Definition register_user (st : state) (now : Z) (name mac_address : string)
  : state * bool :=
  match detect_randomized_mac mac_address with
  | Raise _ => (st, false)
  | Ok r =>
      let st' := set_user st mac_address
                   (User.Make name now [mac_address] r) in
      match detect_randomized_mac mac_address with
      | Raise _ => (st', false)
      | Ok true => (st', false)
      | Ok false => (st', true)
      end
  end.

Definition vendor_map : gmap string string :=
  dict_display [ ("001EC2", "Apple"); ("002608", "Apple");
                 ("DA0E14", "Google"); ("001377", "Samsung") ].

Definition _get_vendor_info (mac : string) : string :=
  let oui := upper (take_str 6 (remove_char ":" mac)) in
  default "Unknown" (vendor_map !! oui).

Definition create_device_fingerprint (st : state) (now : Z) (mac : string)
    (signal : Z) (node_id : string) (capabilities : option (list (string * string)))
  : state * DeviceFingerprint :=
  let h := default [] (mac_history st !! mac) in
  let h := h ++ [Entry.Make signal node_id now] in
  let h := if (50 <? length h)%nat then lastn 50 h else h in
  let st' := {| mac_history := <[mac := h]> (mac_history st);
                known_users := known_users st |} in
  let signal_pattern := map Entry.signal (lastn 10 h) in
  let movement_pattern := map Entry.node (lastn 5 h) in
  (st', {| current_mac := mac;
           signal_strength := signal;
           signal_pattern := signal_pattern;
           connection_time := now;
           movement_pattern := movement_pattern;
           device_capabilities := default [] capabilities;
           vendor_info := _get_vendor_info mac |}).

Definition _signal_pattern_similarity (pattern1 pattern2 : list Z) : Q :=
  match pattern1, pattern2 with
  | [], _ | _, [] => 0
  | _, _ =>
      let min_len := Nat.min (length pattern1) (length pattern2) in
      if (min_len <? 3)%nat then 0
      else
        let p1 := lastn min_len pattern1 in
        let p2 := lastn min_len pattern2 in
        let diff_sum := zsum (map (fun ab => Z.abs (ab.1 - ab.2)) (zip p1 p2)) in
        let max_diff := (Z.of_nat min_len * 100)%Z in
        py_max 0 (1 - inject_Z diff_sum / inject_Z max_diff)
  end.

Definition _movement_pattern_similarity (pattern1 pattern2 : list string) : Q :=
  match pattern1, pattern2 with
  | [], _ | _, [] => 0
  | _, _ =>
      let total_sequences := Nat.max (length pattern1) (length pattern2) in
      let common_sequences :=
        length (filter (fun ab => String.eqb ab.1 ab.2 = true)
                       (zip (rev pattern1) (rev pattern2))) in
      if (0 <? total_sequences)%nat
      then inject_Z (Z.of_nat common_sequences) / inject_Z (Z.of_nat total_sequences)
      else 0
  end.

Definition _calculate_similarity_score (st : state) (fingerprint : DeviceFingerprint)
    (stored_mac : string) (user_data : User.t) : Q :=
  let score := 0 in
  let factors := 0%nat in
  let stored_vendor := _get_vendor_info stored_mac in
  let score :=
    if String.eqb stored_vendor (vendor_info fingerprint)
       && negb (String.eqb stored_vendor "Unknown")
    then score + 0.3 else score in
  let factors := (factors + 1)%nat in
  let score :=
    match mac_history st !! stored_mac with
    | Some h =>
        if (5 <? length h)%nat then
          let stored_signals := map Entry.signal (lastn 10 h) in
          if Qltb 0.8 (_signal_pattern_similarity (signal_pattern fingerprint) stored_signals)
          then score + 0.4 else score
        else score
    | None => score
    end in
  let factors := (factors + 1)%nat in
  let score :=
    match mac_history st !! stored_mac with
    | Some h =>
        let stored_movement := map Entry.node (lastn 5 h) in
        if Qltb 0.6 (_movement_pattern_similarity (movement_pattern fingerprint) stored_movement)
        then score + 0.3 else score
    | None => score
    end in
  let factors := (factors + 1)%nat in
  if (0 <? factors)%nat then score / inject_Z (Z.of_nat factors) else 0.

(** One turn of the loop over [known_users.items()]. *)
Definition match_step (st : state) (fingerprint : DeviceFingerprint)
    (best : option string * Q) (item : string * User.t) : option string * Q :=
  let '(best_match, best_score) := best in
  let '(mac, user_data) := item in
  if User.is_randomized user_data then
    let score := _calculate_similarity_score st fingerprint mac user_data in
    if Qltb best_score score && Qltb 0.7 score
    then (Some (User.name user_data), score)
    else best
  else best.

Definition find_potential_user_match (st : state) (fingerprint : DeviceFingerprint)
  : option string :=
  match dict_get (current_mac fingerprint) (known_users st) with
  | Some user_data => Some (User.name user_data)
  | None => (fold_left (match_step st fingerprint) (known_users st) (None, 0)).1
  end.

(** Truth value of an [Optional[str]]: [None] and [''] are false. *)
Definition truthy (s : option string) : bool :=
  match s with
  | Some (String _ _) => true
  | _ => false
  end.

(** The history is written by [create_device_fingerprint] before
    [detect_randomized_mac] can raise, so the state is returned on both
    paths. *)
Definition track_device (st : state) (now : Z) (mac : string) (signal : Z)
    (node_id : string) (capabilities : option (list (string * string)))
  : state * outcome Result.t :=
  let '(st', fingerprint) :=
    create_device_fingerprint st now mac signal node_id capabilities in
  let identified_user := find_potential_user_match st' fingerprint in
  (st',
   detect_randomized_mac mac ≫= λ is_randomized,
   Ok (Result.Make mac identified_user is_randomized signal node_id now
         (if truthy identified_user && negb is_randomized then 1.0 else 0.5)
         fingerprint)).

End SmartMACTracker.

(** ** Vocabulary of the statements *)

(** The sum the similarity formula is read with: absolute differences
    of the elements at equal distance from the end, over the last [n]
    positions of both patterns. *)
Definition trailing_abs_diff (p1 p2 : list Z) (n : nat) : Z :=
  zsum (map (fun i => Z.abs (nth (length p1 - n + i) p1 0 - nth (length p2 - n + i) p2 0)%Z)
            (seq 0 n)).

(** One detection event handed to a history store. *)
Record observation : Type := {
  obs_time : Z;
  obs_mac : string;
  obs_signal : Z;
  obs_node : string
}.

(** The tracker's history after [create_device_fingerprint] has been
    called once per event, in order. *)
Definition tracker_record_all (st : SmartMACTracker.state) (evs : list observation)
  : SmartMACTracker.state :=
  fold_left (fun st e =>
               (SmartMACTracker.create_device_fingerprint st (obs_time e) (obs_mac e)
                  (obs_signal e) (obs_node e) None).1) evs st.

(** The detector's history after [update_device_history] has been called
    once per event, in order. *)
Definition detector_record_all (st : MobilePhoneDetector.state) (evs : list observation)
  : MobilePhoneDetector.state :=
  fold_left (fun st e =>
               MobilePhoneDetector.update_device_history st (obs_time e) (obs_mac e)
                 (obs_signal e) (obs_node e)) evs st.

(** The events of one MAC, in arrival order. *)
Definition events_of (m : string) (evs : list observation) : list observation :=
  filter (fun e => obs_mac e = m) evs.

Definition entry_of (e : observation) : SmartMACTracker.Entry.t :=
  SmartMACTracker.Entry.Make (obs_signal e) (obs_node e) (obs_time e).

(** The keys written in both OUI tables of the detector. *)
Definition shared_keys : list string :=
  List.filter (fun k => existsb (String.eqb k)
                          (map fst MobilePhoneDetector.infrastructure_oui_items))
              (map fst MobilePhoneDetector.mobile_oui_items).

(** What the tracker holds for a MAC: [mac_history[m]], empty when the
    key is absent. *)
Definition tracker_history (st : SmartMACTracker.state) (m : string)
  : list SmartMACTracker.Entry.t :=
  default [] (SmartMACTracker.mac_history st !! m).

(** What the detector holds for a MAC: [device_history[m].signal_pattern],
    when the key is present. *)
Definition detector_pattern (st : MobilePhoneDetector.state) (m : string)
  : option (list Z) :=
  MobilePhoneDetector.signal_pattern <$> MobilePhoneDetector.device_history st !! m.

(** [n] observations of one MAC with signals [-1, -2, ..., -n]. *)
Definition walk (m : string) (n : nat) : list observation :=
  map (fun i => Build_observation (Z.of_nat i) m (- Z.of_nat i) "entrance") (seq 1 n).

(** Standard deviations of an integer sequence, as statistics names them:
    the population form divides the sum of squared deviations by [n], the
    sample form by [n - 1]. Both are taken as [0] below two elements. *)
Definition mean (l : list Z) : R := (IZR (zsum l) / INR (length l))%R.

Definition squared_deviations (l : list Z) : R :=
  MobilePhoneDetector.rsum (map (fun s => (IZR s - mean l) ^ 2)%R l).

Definition population_stdev (l : list Z) : R :=
  if (length l <? 2)%nat then 0%R
  else sqrt (squared_deviations l / INR (length l)).

Definition sample_stdev (l : list Z) : R :=
  if (length l <? 2)%nat then 0%R
  else sqrt (squared_deviations l / INR (length l - 1)).

(** The four signals of the tracker's randomization detector, read on
    the octets of an address: the locally-administered bit, the two sets of
    first octets, and an OUI that none of the manufacturer lists holds. *)
Definition first_octet_in (m : Mac.t) (l : list Z) : bool :=
  existsb (Z.eqb (Mac.first_octet m)) l.

Definition oui_unlisted (m : Mac.t) : bool :=
  negb (existsb (SmartMACTracker.str_in (Mac.oui_plain m))
                (map snd SmartMACTracker.known_ouis)).

Definition flagged (m : Mac.t) : bool :=
  Mac.locally_administered m
  || first_octet_in m [0x02; 0x06; 0x0A; 0x0E]%Z
  || first_octet_in m [0xDA; 0xDE; 0xD6; 0xD2]%Z
  || oui_unlisted m.

(** The manufacturer OUIs of the tracker's table that the first three
    signals of its detector leave alone. *)
Definition unflagged_ouis : list string :=
  List.filter (fun o => negb (String.eqb o "DA0E14"))
              (concat (map snd SmartMACTracker.known_ouis)).

(** The observations [filter_mobile_devices] records for a list: one per
    element that has the key ['mac'], with the defaults of the other two
    keys. *)
Definition detection_events (now : Z) (l : list MobilePhoneDetector.Detection)
  : list observation :=
  omap (fun d =>
          (fun mac => Build_observation now mac
                        (default (-50)%Z (MobilePhoneDetector.det_signal d))
                        (default "unknown" (MobilePhoneDetector.det_node d)))
          <$> MobilePhoneDetector.det_mac d) l.

(** What [update_device_history] keeps true of a stored device: after one
    observation the score is the initial [0.0]; afterwards it is the score
    of the pattern that is stored with it. *)
Definition stored_score_ok (d : MobilePhoneDetector.DeviceInfo) : Prop :=
  (length (MobilePhoneDetector.signal_pattern d) = 1%nat
   /\ MobilePhoneDetector.behavior_score d = 0%R)
  \/ ((2 <= length (MobilePhoneDetector.signal_pattern d) <= 20)%nat
      /\ MobilePhoneDetector.behavior_score d
         = MobilePhoneDetector._calculate_behavior_score d).

(** The first words of the labels a mobile classification can carry. *)
Definition mobile_vendor_words : list string :=
  ["Apple"; "Samsung"; "Google"; "Huawei"; "OnePlus"; "Mobile"; "Unknown"].

(** * Properties *)

(** ** Built-ins on sample inputs *)

Example upper_ex : upper "da:0e-1f" = "DA:0E-1F".
Proof. reflexivity. Qed.

Example int16_ex : int16 "A2" = Ok 162%Z /\ int16 "a" = Ok 10%Z
  /\ int16 "G" = Raise ValueError /\ int16 "" = Raise ValueError
  /\ int16 "A2-11" = Raise ValueError /\ int16 " 0x_1f " = Ok 31%Z
  /\ int16 "_" = Raise ValueError /\ int16 "1__2" = Raise ValueError.
Proof. repeat split; reflexivity. Qed.

Example is_mobile_ex :
  MobilePhoneDetector.is_mobile_device MobilePhoneDetector.init "3C:2E:FF:12:34:56"
  = (true, 0.95%R, MobilePhoneDetector.Text "Apple iPhone").
Proof. vm_compute. reflexivity. Qed.


(** ** Lists and dictionaries *)

Section ListFacts.
Context {A : Type}.

Lemma lastn_length (n : nat) (l : list A) :
  length (lastn n l) = Nat.min n (length l).
Proof. unfold lastn. rewrite length_drop. lia. Qed.

Lemma lastn_all (n : nat) (l : list A) :
  (length l <= n)%nat -> lastn n l = l.
Proof.
  intros H. unfold lastn.
  replace (length l - n)%nat with 0%nat by lia. reflexivity.
Qed.

Lemma lastn_snoc_lastn (n : nat) (l : list A) (x : A) :
  (1 <= n)%nat -> lastn n (lastn n l ++ [x]) = lastn n (l ++ [x]).
Proof.
  intros Hn. destruct (Nat.le_gt_cases (length l) n) as [Hle | Hgt].
  - now rewrite (lastn_all n l).
  - assert (Hd : length (lastn n l) = n) by (rewrite lastn_length; lia).
    unfold lastn at 1. rewrite length_app, Hd. simpl.
    replace (n + 1 - n)%nat with 1%nat by lia.
    unfold lastn. rewrite length_app. simpl.
    replace (length l + 1 - n)%nat with (length l - n + 1)%nat by lia.
    rewrite <- (drop_drop (l ++ [x])).
    rewrite (drop_app_le l) by lia. reflexivity.
Qed.

Lemma lastn_nth (n i : nat) (l : list A) (d : A) :
  (n <= length l)%nat -> nth i (lastn n l) d = nth (length l - n + i) l d.
Proof.
  intros H. unfold lastn.
  rewrite !nth_lookup, lookup_drop. reflexivity.
Qed.
End ListFacts.

Section DictFacts.
Context {V : Type}.
Import SmartMACTracker.

Lemma dict_get_set_eq (k : string) (v : V) (d : list (string * V)) :
  dict_get k (dict_set k v d) = Some v.
Proof.
  induction d as [| [k' v'] d IH]; simpl.
  - now rewrite String.eqb_refl.
  - destruct (String.eqb k k') eqn:E; simpl; rewrite ?String.eqb_refl, ?E; auto.
Qed.

Lemma dict_get_set_ne (k k' : string) (v : V) (d : list (string * V)) :
  k <> k' -> dict_get k' (dict_set k v d) = dict_get k' d.
Proof.
  intros Hne. induction d as [| [k0 v0] d IH]; simpl.
  - destruct (String.eqb k' k) eqn:E; [apply String.eqb_eq in E; congruence | reflexivity].
  - destruct (String.eqb k k0) eqn:E; simpl.
    + apply String.eqb_eq in E. subst k0.
      destruct (String.eqb k' k) eqn:E'; [apply String.eqb_eq in E'; congruence | reflexivity].
    + now rewrite IH.
Qed.

(** A key is bound by a dictionary display exactly when it is written
    in it, and then to the value written last. *)
Lemma dict_display_snoc (items : list (string * V)) (k : string) (v : V) :
  dict_display (items ++ [(k, v)]) = <[k := v]> (dict_display items).
Proof. unfold dict_display. now rewrite fold_left_app. Qed.

Lemma dict_display_is_Some (items : list (string * V)) (k : string) :
  is_Some (dict_display items !! k) <-> In k (map fst items).
Proof.
  induction items as [| [k' v'] items IH] using rev_ind.
  - unfold dict_display. simpl. rewrite lookup_empty. split; [intros [? ?]; discriminate | tauto].
  - rewrite dict_display_snoc, map_app, in_app_iff. simpl.
    destruct (decide (k' = k)) as [-> | Hne].
    + rewrite lookup_insert_eq. split; eauto.
    + rewrite lookup_insert_ne by done. rewrite IH. tauto.
Qed.
End DictFacts.

(** ** The OUI tables of the detector *)

Section OuiTables.
Import MobilePhoneDetector.

Lemma shared_keys_eq : nodup string_dec shared_keys = ["04:18:D6"].
Proof. vm_compute. reflexivity. Qed.

(** Every prefix bound in both tables is [04:18:D6]. *)
Lemma oui_overlap_only (k : string) :
  is_Some (mobile_ouis !! k) -> is_Some (infrastructure_ouis !! k) -> k = "04:18:D6".
Proof.
  unfold mobile_ouis, infrastructure_ouis. rewrite !dict_display_is_Some.
  intros Hm Hi.
  assert (H : In k (nodup string_dec shared_keys)).
  { apply nodup_In. unfold shared_keys. apply List.filter_In. split; [exact Hm |].
    apply existsb_exists. exists k. split; [exact Hi | apply String.eqb_refl]. }
  rewrite shared_keys_eq in H. destruct H as [<- | []]. reflexivity.
Qed.

(** C3, evaluated on the code: the prefix [04:18:D6] is a key of the
    mobile table (Samsung) and of the infrastructure table (Ubiquiti), so
    the two tables are not disjoint; the address that the module's own
    demonstration lists as a Ubiquiti access point is classified as a
    mobile Samsung handset, because the mobile table is consulted first. *)
Theorem oui_tables_overlap (st : state) :
  mobile_ouis !! "04:18:D6" = Some "Samsung Android"
  /\ infrastructure_ouis !! "04:18:D6" = Some "Ubiquiti UniFi AP"
  /\ is_mobile_device st "04:18:D6:9A:BC:DE" = (true, 0.95%R, Text "Samsung Android").
Proof.
  assert (Hm : mobile_ouis !! "04:18:D6" = Some "Samsung Android")
    by (vm_compute; reflexivity).
  split; [exact Hm |]. split; [vm_compute; reflexivity |].
  unfold is_mobile_device.
  change (format_oui (get_oui "04:18:D6:9A:BC:DE")) with "04:18:D6".
  now rewrite Hm.
Qed.
End OuiTables.


(** ** The tracker: registration followed by tracking *)

Section TrackerIdentification.
Import SmartMACTracker.

Lemma track_device_unfold (st : state) (now : Z) (mac : string) (signal : Z)
    (node_id : string) (caps : option (list (string * string))) :
  track_device st now mac signal node_id caps =
  let sf := create_device_fingerprint st now mac signal node_id caps in
  let identified_user := find_potential_user_match sf.1 sf.2 in
  (sf.1,
   detect_randomized_mac mac ≫= λ is_randomized,
   Ok (Result.Make mac identified_user is_randomized signal node_id now
         (if truthy identified_user && negb is_randomized then 1.0 else 0.5)%Q
         sf.2)).
Proof. reflexivity. Qed.

Lemma find_registered (st : state) (fp : DeviceFingerprint) (u : User.t) :
  dict_get (current_mac fp) (known_users st) = Some u ->
  find_potential_user_match st fp = Some (User.name u).
Proof. intros H. unfold find_potential_user_match. now rewrite H. Qed.

Lemma register_user_known (st : state) (now : Z) (name mac : string) (r : bool) :
  detect_randomized_mac mac = Ok r ->
  register_user st now name mac
  = (set_user st mac (User.Make name now [mac] r), negb r).
Proof. intros H. unfold register_user. rewrite H. now destruct r. Qed.

Lemma detect_AABB : detect_randomized_mac "AA:BB:CC:DD:EE:FF" = Ok true.
Proof. vm_compute. reflexivity. Qed.

(** C1, as the code has it: after [register_user name "AA:BB:CC:DD:EE:FF"],
    tracking that address returns the registered name, but the address is
    flagged randomized (its first octet [AA] has bit [0x02] set and its OUI
    is not in the manufacturer table), so the confidence is [0.5]. *)
Theorem track_registered_AABB (st : state) (t0 t1 : Z) (name : string)
    (signal : Z) (node_id : string) (caps : option (list (string * string))) :
  let st1 := (register_user st t0 name "AA:BB:CC:DD:EE:FF").1 in
  exists r : Result.t,
    (track_device st1 t1 "AA:BB:CC:DD:EE:FF" signal node_id caps).2 = Ok r
    /\ Result.identified_user r = Some name
    /\ Result.is_randomized r = true
    /\ Result.confidence r = 0.5%Q.
Proof.
  intros st1. subst st1.
  rewrite (register_user_known _ _ _ _ true detect_AABB).
  rewrite track_device_unfold. cbv zeta.
  rewrite detect_AABB.
  eexists. split; [reflexivity |]. cbn [Result.identified_user Result.is_randomized Result.confidence].
  rewrite andb_false_r.
  split; [| split; reflexivity].
  apply (find_registered _ _ (User.Make name t0 ["AA:BB:CC:DD:EE:FF"] true)).
  cbn. apply dict_get_set_eq.
Qed.

(** C1 as stated fails on the module's own example: the result is
    flagged randomized and carries confidence [0.5], not [1.0]. *)
Lemma track_registered_AABB_not_certain :
  ~ (exists r : Result.t,
       (track_device (register_user init 0 "Glenn" "AA:BB:CC:DD:EE:FF").1 1
          "AA:BB:CC:DD:EE:FF" (-45) "node_001" None).2 = Ok r
       /\ Result.identified_user r = Some "Glenn"
       /\ Result.is_randomized r = false
       /\ (Result.confidence r == 1.0)%Q).
Proof.
  intros (r & Hr & _ & Hrand & _).
  vm_compute in Hr. injection Hr as <-. discriminate Hrand.
Qed.

End TrackerIdentification.

(** ** The tracker: the similarity score never reaches the threshold *)

Section TrackerMatching.
Import SmartMACTracker.

Lemma Qltb_false (a b : Q) : (b <= a)%Q -> Qltb a b = false.
Proof. intros H. unfold Qltb. apply Qle_bool_iff in H. now rewrite H. Qed.

Lemma similarity_score_bound (st : state) (fp : DeviceFingerprint)
    (m : string) (u : User.t) :
  (_calculate_similarity_score st fp m u <= (0.3 + 0.4 + 0.3) / 3)%Q.
Proof.
  unfold _calculate_similarity_score.
  repeat match goal with
         | |- context [match ?x with Some _ => _ | None => _ end] => destruct x
         | |- context [if ?b then _ else _] => destruct b
         end; vm_compute; discriminate.
Qed.

Lemma match_step_none (st : state) (fp : DeviceFingerprint) (q : Q)
    (item : string * User.t) :
  match_step st fp (None, q) item = (None, q).
Proof.
  destruct item as [m u]. unfold match_step.
  destruct (User.is_randomized u); [| reflexivity].
  rewrite (Qltb_false 0.7).
  - now rewrite andb_false_r.
  - eapply Qle_trans; [apply similarity_score_bound |]. vm_compute. discriminate.
Qed.

Lemma match_loop_none (st : state) (fp : DeviceFingerprint) (q : Q)
    (items : list (string * User.t)) :
  fold_left (match_step st fp) items (None, q) = (None, q).
Proof.
  induction items as [| item items IH]; cbn [fold_left]; [reflexivity |].
  rewrite match_step_none. exact IH.
Qed.

(** C2: a fingerprint whose MAC has no entry in [known_users] is never
    matched: every similarity score is at most [(0.3 + 0.4 + 0.3) / 3],
    which is [1/3] and does not exceed [0.7], so the loop leaves
    [best_match] at [None]. *)
Theorem no_heuristic_match (st : state) (fp : DeviceFingerprint) :
  dict_get (current_mac fp) (known_users st) = None ->
  find_potential_user_match st fp = None
  /\ (forall (m : string) (u : User.t),
        (_calculate_similarity_score st fp m u <= (0.3 + 0.4 + 0.3) / 3)%Q
        /\ Qltb 0.7 (_calculate_similarity_score st fp m u) = false)
  /\ ((0.3 + 0.4 + 0.3) / 3 == 1 # 3)%Q.
Proof.
  intros H. split; [| split].
  - unfold find_potential_user_match. rewrite H. now rewrite match_loop_none.
  - intros m u. split; [apply similarity_score_bound |].
    apply Qltb_false. eapply Qle_trans; [apply similarity_score_bound |].
    vm_compute. discriminate.
  - reflexivity.
Qed.

End TrackerMatching.

(** The hypothesis of [no_heuristic_match] on a registry with a randomized
    entry that has history, probed with another address of the same
    vendor. *)
Lemma no_heuristic_match_witness :
  let st :=
    tracker_record_all
      (SmartMACTracker.register_user SmartMACTracker.init 0 "Glenn" "DA:0E:14:12:34:56").1
      (map (fun t => Build_observation t "DA:0E:14:12:34:56" (-50) "node_002")
           [1; 2; 3; 4; 5; 6]%Z) in
  let fp :=
    (SmartMACTracker.create_device_fingerprint st 7 "DA:0E:14:65:43:21" (-50)
       "node_002" None).2 in
  SmartMACTracker.dict_get (SmartMACTracker.current_mac fp) (SmartMACTracker.known_users st)
  = None
  /\ SmartMACTracker.find_potential_user_match st fp = None.
Proof.
  intros st fp.
  assert (H : SmartMACTracker.dict_get (SmartMACTracker.current_mac fp)
                (SmartMACTracker.known_users st) = None) by reflexivity.
  split; [exact H | exact (proj1 (no_heuristic_match st fp H))].
Defined.

(** ** The tracker: signal-pattern similarity *)

Section SignalSimilarity.
Import SmartMACTracker.

Lemma Qltb_true (a b : Q) : Qltb a b = true -> (a < b)%Q.
Proof.
  unfold Qltb. intros H. apply Qnot_le_lt. intros Hle.
  apply Qle_bool_iff in Hle. rewrite Hle in H. discriminate.
Qed.

Lemma Qltb_false_le (a b : Q) : Qltb a b = false -> (b <= a)%Q.
Proof.
  unfold Qltb. intros H. apply Qle_bool_iff.
  destruct (Qle_bool b a); [reflexivity | discriminate].
Qed.

Lemma py_max_Qmax (a b : Q) : (py_max a b == Qmax a b)%Q.
Proof.
  unfold py_max. destruct (Qltb a b) eqn:E.
  - apply Qltb_true in E. symmetry. apply Q.max_r. now apply Qlt_le_weak.
  - apply Qltb_false_le in E. symmetry. now apply Q.max_l.
Qed.

Lemma abs_diff_zip_comm (a b : list Z) :
  map (fun ab : Z * Z => Z.abs (ab.1 - ab.2)) (zip a b)
  = map (fun ab : Z * Z => Z.abs (ab.1 - ab.2)) (zip b a).
Proof.
  revert b. induction a as [| x a IH]; intros [| y b]; simpl; try reflexivity.
  f_equal; [lia | apply IH].
Qed.

Lemma signal_pattern_similarity_sym (p1 p2 : list Z) :
  _signal_pattern_similarity p1 p2 = _signal_pattern_similarity p2 p1.
Proof.
  unfold _signal_pattern_similarity.
  destruct p1 as [| x p1], p2 as [| y p2]; try reflexivity.
  cbv beta iota zeta.
  rewrite (Nat.min_comm (length (y :: p2))).
  destruct (_ <? 3)%nat; [reflexivity |].
  now rewrite abs_diff_zip_comm.
Qed.

Lemma map_zip_nth {B : Type} (f : Z * Z -> B) (a b : list Z) (n : nat) :
  length a = n -> length b = n ->
  map f (zip a b) = map (fun i => f (nth i a 0%Z, nth i b 0%Z)) (seq 0 n).
Proof.
  revert b n. induction a as [| x a IH]; intros [| y b] [| n] Ha Hb;
    simpl in *; try discriminate; try reflexivity.
  f_equal. rewrite <- seq_shift, map_map. apply IH; congruence.
Qed.

Lemma trailing_abs_diff_zip (p1 p2 : list Z) :
  let n := Nat.min (length p1) (length p2) in
  zsum (map (fun ab : Z * Z => Z.abs (ab.1 - ab.2)) (zip (lastn n p1) (lastn n p2)))
  = trailing_abs_diff p1 p2 n.
Proof.
  intros n. unfold trailing_abs_diff. f_equal.
  rewrite (map_zip_nth _ _ _ n) by (rewrite lastn_length; lia).
  apply map_ext. intros i. cbn [fst snd].
  rewrite !lastn_nth by lia. reflexivity.
Qed.

(** C10: the similarity of two signal patterns does not depend on their
    order; with [n] the smaller of the two lengths it is [0] when [n < 3],
    and otherwise [max(0, 1 - (sum of |a_i - b_i|) / (n * 100))] over the
    last [n] elements of both. *)
Theorem signal_pattern_similarity_spec (p1 p2 : list Z) :
  let n := Nat.min (length p1) (length p2) in
  _signal_pattern_similarity p1 p2 = _signal_pattern_similarity p2 p1
  /\ (_signal_pattern_similarity p1 p2 ==
      if (n <? 3)%nat then 0
      else Qmax 0 (1 - inject_Z (trailing_abs_diff p1 p2 n)
                       / inject_Z (Z.of_nat n * 100)))%Q.
Proof.
  intros n. split; [apply signal_pattern_similarity_sym |].
  pose proof (trailing_abs_diff_zip p1 p2) as Hsum. cbv zeta in Hsum. fold n in Hsum.
  unfold _signal_pattern_similarity.
  destruct p1 as [| x p1]; [reflexivity |].
  destruct p2 as [| y p2]; [subst n; rewrite Nat.min_0_r; reflexivity |].
  cbv beta iota zeta. fold n.
  destruct (n <? 3)%nat; [reflexivity |].
  rewrite Hsum. apply py_max_Qmax.
Qed.

End SignalSimilarity.

(** ** The two history stores *)

Section HistoryStores.

Lemma events_of_snoc (m : string) (evs : list observation) (e : observation) :
  events_of m (evs ++ [e])
  = events_of m evs ++ (if decide (obs_mac e = m) then [e] else []).
Proof.
  unfold events_of. rewrite filter_app. reflexivity.
Qed.

Lemma tracker_history_step (st : SmartMACTracker.state) (e : observation) (m : string)
    (caps : option (list (string * string))) :
  tracker_history
    (SmartMACTracker.create_device_fingerprint st (obs_time e) (obs_mac e)
       (obs_signal e) (obs_node e) caps).1 m
  = if decide (obs_mac e = m)
    then lastn 50 (tracker_history st m ++ [entry_of e])
    else tracker_history st m.
Proof.
  unfold tracker_history, SmartMACTracker.create_device_fingerprint.
  cbn [fst SmartMACTracker.mac_history].
  destruct (decide (obs_mac e = m)) as [<- | Hne].
  - rewrite lookup_insert_eq. cbn [default].
    fold (entry_of e).
    destruct (50 <? _)%nat eqn:E; [reflexivity |].
    apply Nat.ltb_ge in E. now rewrite lastn_all.
  - now rewrite lookup_insert_ne.
Qed.

Lemma tracker_history_after (evs : list observation) (m : string) :
  tracker_history (tracker_record_all SmartMACTracker.init evs) m
  = lastn 50 (map entry_of (events_of m evs)).
Proof.
  induction evs as [| e evs IH] using rev_ind.
  - reflexivity.
  - unfold tracker_record_all. rewrite fold_left_app. cbn [fold_left].
    fold (tracker_record_all SmartMACTracker.init evs).
    rewrite tracker_history_step, events_of_snoc, IH.
    destruct (decide (obs_mac e = m)).
    + rewrite map_app. cbn [map]. apply lastn_snoc_lastn. lia.
    + now rewrite app_nil_r.
Qed.

Lemma detector_pattern_step (st : MobilePhoneDetector.state) (e : observation)
    (m : string) :
  detector_pattern
    (MobilePhoneDetector.update_device_history st (obs_time e) (obs_mac e)
       (obs_signal e) (obs_node e)) m
  = if decide (obs_mac e = m)
    then Some (match detector_pattern st m with
               | None => [obs_signal e]
               | Some p => lastn 20 (p ++ [obs_signal e])
               end)
    else detector_pattern st m.
Proof.
  unfold detector_pattern, MobilePhoneDetector.update_device_history.
  destruct (decide (obs_mac e = m)) as [<- | Hne].
  - destruct (MobilePhoneDetector.device_history st !! obs_mac e) as [d |];
      cbn [MobilePhoneDetector.device_history]; rewrite lookup_insert_eq; reflexivity.
  - destruct (MobilePhoneDetector.device_history st !! obs_mac e) as [d |];
      cbn [MobilePhoneDetector.device_history]; now rewrite lookup_insert_ne.
Qed.

Lemma detector_pattern_after (evs : list observation) (m : string) :
  detector_pattern (detector_record_all MobilePhoneDetector.init evs) m
  = match events_of m evs with
    | [] => None
    | _ :: _ => Some (lastn 20 (map obs_signal (events_of m evs)))
    end.
Proof.
  induction evs as [| e evs IH] using rev_ind.
  - reflexivity.
  - unfold detector_record_all. rewrite fold_left_app. cbn [fold_left].
    fold (detector_record_all MobilePhoneDetector.init evs).
    rewrite detector_pattern_step, events_of_snoc, IH.
    destruct (decide (obs_mac e = m)).
    + destruct (events_of m evs) as [| e1 es] eqn:E.
      * reflexivity.
      * cbn [app]. rewrite app_comm_cons, map_app. cbn [map].
        f_equal. apply lastn_snoc_lastn. lia.
    + now rewrite app_nil_r.
Qed.

(** C8, as the code has it: after any sequence of records, the tracker's
    [mac_history] of a MAC is exactly the last 50 entries recorded for it,
    in arrival order, hence never longer than 50; the detector's
    [signal_pattern] of a MAC is exactly the last 20 signals recorded for
    it, hence never longer than 20. *)
Theorem history_stores_keep_most_recent (evs : list observation) (m : string) :
  let es := events_of m evs in
  let h := tracker_history (tracker_record_all SmartMACTracker.init evs) m in
  let p := detector_pattern (detector_record_all MobilePhoneDetector.init evs) m in
  h = lastn 50 (map entry_of es)
  /\ (length h <= 50)%nat
  /\ p = match es with
         | [] => None
         | _ :: _ => Some (lastn 20 (map obs_signal es))
         end
  /\ (forall q, p = Some q -> (length q <= 20)%nat).
Proof.
  intros es h p. subst es h p.
  rewrite tracker_history_after, detector_pattern_after.
  split; [reflexivity |]. split; [rewrite lastn_length; lia |].
  split; [reflexivity |].
  intros q. destruct (events_of m evs); [discriminate |].
  intros [= <-]. rewrite lastn_length. lia.
Qed.

(** C8 as stated fails on the detector's store: after 1000 calls of
    [update_device_history] for one MAC the stored pattern is not the last
    50 signals; it holds 20. *)
Lemma detector_history_not_last_50 :
  let evs := walk "AA:BB:CC:DD:EE:FF" 1000 in
  let p := detector_pattern (detector_record_all MobilePhoneDetector.init evs)
             "AA:BB:CC:DD:EE:FF" in
  p <> Some (lastn 50 (map obs_signal evs))
  /\ (length <$> p) = Some 20%nat.
Proof.
  intros evs p. subst p. rewrite detector_pattern_after.
  split; [intros H; vm_compute in H; discriminate H | vm_compute; reflexivity].
Qed.

End HistoryStores.

(** ** The detector: behaviour score *)

Section BehaviorScore.
Import MobilePhoneDetector.
Local Open Scope R_scope.

Lemma signal_variance_is_population_stdev (signals : list Z) :
  _calculate_signal_variance signals = population_stdev signals.
Proof. reflexivity. Qed.

Lemma signal_variance_nonneg (signals : list Z) :
  0 <= _calculate_signal_variance signals.
Proof.
  unfold _calculate_signal_variance.
  destruct (_ <? 2)%nat; [lra | apply sqrt_pos].
Qed.

Lemma movement_score_range (x k : R) :
  0 <= x -> 0 < k -> 0 <= Rmin (x / k) 1.0 <= 1.
Proof.
  intros Hx Hk. split.
  - apply Rmin_glb; [| lra].
    apply Rmult_le_pos; [exact Hx |]. left. now apply Rinv_0_lt_compat.
  - eapply Rle_trans; [apply Rmin_r | lra].
Qed.

(** C7, as the code has it: the behaviour score is
    [0.5 * min(stdDev / 15.0, 1.0) + 0.3 * 0.7 + 0.2 * 0.6] where [stdDev]
    is the population standard deviation of the stored signals (divisor
    [n]; [0] below two samples), and it lies in [[0, 1]]. *)
Theorem behavior_score_formula (device : DeviceInfo) :
  let stdDev := population_stdev (signal_pattern device) in
  _calculate_behavior_score device
  = 0.5 * Rmin (stdDev / 15.0) 1.0 + 0.3 * 0.7 + 0.2 * 0.6
  /\ 0 <= _calculate_behavior_score device <= 1.
Proof.
  intros stdDev. subst stdDev.
  rewrite <- signal_variance_is_population_stdev.
  unfold _calculate_behavior_score.
  pose proof (movement_score_range
                (_calculate_signal_variance (signal_pattern device)) 15.0
                (signal_variance_nonneg _)) as H.
  split; [lra | lra].
Qed.

Lemma squared_deviations_40_42 : squared_deviations [-40; -42]%Z = 2.
Proof.
  unfold squared_deviations, mean, rsum, zsum. cbn [map fold_right fold_left length INR].
  change (0 + -40 + -42)%Z with (-82)%Z. field.
Qed.

(** C7 as stated fails on the stored signals [[-40, -42]]: their sample
    standard deviation is [sqrt 2], the code works with [1]. *)
Lemma behavior_score_not_sample_stdev :
  let device := {| mac := "5C:51:4F:66:77:88"; vendor := "Unknown";
                   device_type := "Unknown"; confidence := 0.0; first_seen := 0;
                   signal_pattern := [-40; -42]%Z; behavior_score := 0.0 |} in
  _calculate_behavior_score device
  <> 0.5 * Rmin (sample_stdev (signal_pattern device) / 15.0) 1.0 + 0.3 * 0.7 + 0.2 * 0.6.
Proof.
  intros device. subst device.
  unfold _calculate_behavior_score.
  rewrite signal_variance_is_population_stdev.
  unfold population_stdev, sample_stdev.
  cbn [signal_pattern length Nat.ltb Nat.leb Nat.sub].
  rewrite squared_deviations_40_42. cbn [INR].
  replace (2 / (1 + 1)) with 1 by field.
  replace (2 / 1) with 2 by field.
  rewrite sqrt_1.
  assert (H2 : 1 < sqrt 2).
  { rewrite <- sqrt_1 at 1. apply sqrt_lt_1; lra. }
  assert (Hcode : Rmin (1 / 15.0) 1.0 = 1 / 15.0) by (apply Rmin_left; lra).
  assert (Hspec : 1 / 15.0 < Rmin (sqrt 2 / 15.0) 1.0) by (apply Rmin_glb_lt; lra).
  rewrite Hcode. lra.
Qed.

(** What [update_device_history] leaves in [behavior_score]: [0.0] at the
    first observation of a MAC, the computed score of the trimmed pattern
    afterwards. *)
Lemma stored_behavior_score (st : state) (now : Z) (m : string) (signal : Z)
    (node_id : string) :
  behavior_score <$> device_history (update_device_history st now m signal node_id) !! m
  = Some (match device_history st !! m with
          | None => 0.0
          | Some device =>
              _calculate_behavior_score
                (with_signal_pattern device (lastn 20 (signal_pattern device ++ [signal])))
          end).
Proof.
  unfold update_device_history.
  destruct (device_history st !! m) as [device |];
    cbn [device_history]; rewrite lookup_insert_eq; reflexivity.
Qed.

End BehaviorScore.

(** ** The text of a MAC address under the string operations *)

Section MacText.

Ltac by_octet b := destruct b; reflexivity.

Lemma colon_hi (b : Byte.byte) : Ascii.eqb ":" (Mac.hi b) = false.
Proof. by_octet b. Qed.

Lemma colon_lo (b : Byte.byte) : Ascii.eqb ":" (Mac.lo b) = false.
Proof. by_octet b. Qed.

Lemma dash_hi (b : Byte.byte) : Ascii.eqb "-" (Mac.hi b) = false.
Proof. by_octet b. Qed.

Lemma dash_lo (b : Byte.byte) : Ascii.eqb "-" (Mac.lo b) = false.
Proof. by_octet b. Qed.

Lemma upper_hi (b : Byte.byte) : upper_char (Mac.hi b) = Mac.hi b.
Proof. by_octet b. Qed.

Lemma upper_lo (b : Byte.byte) : upper_char (Mac.lo b) = Mac.lo b.
Proof. by_octet b. Qed.

Lemma int16_octet (b : Byte.byte) :
  int16 (Mac.octet_hex b) = Ok (Mac.octet_value b).
Proof. by_octet b. Qed.

Lemma int16_lo_bit (b : Byte.byte) :
  (int16 (String (Mac.lo b) EmptyString) ≫= λ v, Ok (negb (Z.land v 2 =? 0)%Z))
  = Ok (Z.testbit (Mac.octet_value b) 1).
Proof. by_octet b. Qed.

Lemma octet_bit (b : Byte.byte) :
  negb (Z.land (Mac.octet_value b) 2 =? 0)%Z = Z.testbit (Mac.octet_value b) 1.
Proof. by_octet b. Qed.

Lemma first_digits_in (b : Byte.byte) (rest : string) (a1 b1 a2 b2 a3 b3 a4 b4 : ascii) :
  startswith_any [String a1 (String b1 ""); String a2 (String b2 "");
                  String a3 (String b3 ""); String a4 (String b4 "")]
                 (String (Mac.hi b) (String (Mac.lo b) rest))
  = existsb (fun p : ascii * ascii => Ascii.eqb p.1 (Mac.hi b) && Ascii.eqb p.2 (Mac.lo b))
            [(a1, b1); (a2, b2); (a3, b3); (a4, b4)].
Proof.
  assert (H : forall x y, startswith (String x (String y "")) (String (Mac.hi b) (String (Mac.lo b) rest))
                          = Ascii.eqb x (Mac.hi b) && Ascii.eqb y (Mac.lo b)).
  { intros x y. unfold startswith. cbn [String.prefix].
    destruct (ascii_dec x (Mac.hi b)) as [-> | Hx].
    - rewrite Ascii.eqb_refl. destruct (ascii_dec y (Mac.lo b)) as [-> | Hy].
      + rewrite Ascii.eqb_refl. now destruct rest.
      + apply Ascii.eqb_neq in Hy. now rewrite Hy.
    - apply Ascii.eqb_neq in Hx. now rewrite Hx. }
  unfold startswith_any. cbn [existsb]. now rewrite !H.
Qed.

Lemma remove_colon_digits (b : Byte.byte) (rest : string) :
  remove_char ":" (Mac.digits b rest) = Mac.digits b (remove_char ":" rest).
Proof. unfold Mac.digits. cbn [remove_char]. now rewrite colon_hi, colon_lo. Qed.

Lemma remove_dash_digits (b : Byte.byte) (rest : string) :
  remove_char "-" (Mac.digits b rest) = Mac.digits b (remove_char "-" rest).
Proof. unfold Mac.digits. cbn [remove_char]. now rewrite dash_hi, dash_lo. Qed.

Lemma remove_colon_colon (rest : string) :
  remove_char ":" (Mac.colon rest) = remove_char ":" rest.
Proof. reflexivity. Qed.

Lemma upper_digits (b : Byte.byte) (rest : string) :
  upper (Mac.digits b rest) = Mac.digits b (upper rest).
Proof. unfold Mac.digits. cbn [upper]. now rewrite upper_hi, upper_lo. Qed.

Lemma upper_colon (rest : string) : upper (Mac.colon rest) = Mac.colon (upper rest).
Proof. reflexivity. Qed.

Lemma split_head_digits (b : Byte.byte) (rest : string) :
  split_head ":" (Mac.digits b (Mac.colon rest)) = Mac.octet_hex b.
Proof.
  unfold Mac.digits, Mac.octet_hex, Mac.colon. cbn [split_head].
  now rewrite colon_hi, colon_lo.
Qed.

Ltac mac_text :=
  repeat first [ rewrite upper_digits | rewrite upper_colon
               | rewrite remove_colon_digits | rewrite remove_colon_colon
               | rewrite remove_dash_digits ].

(** The tracker's cleaned text of an address: the twelve digits. *)
Lemma clean_to_string (m : Mac.t) :
  upper (remove_char ":" (Mac.to_string m))
  = Mac.digits (Mac.o1 m) (Mac.digits (Mac.o2 m) (Mac.digits (Mac.o3 m)
      (Mac.digits (Mac.o4 m) (Mac.digits (Mac.o5 m) (Mac.digits (Mac.o6 m) ""))))).
Proof.
  unfold Mac.to_string. mac_text. reflexivity.
Qed.

(** The detector's table key of an address. *)
Lemma format_get_oui (m : Mac.t) :
  MobilePhoneDetector.format_oui (MobilePhoneDetector.get_oui (Mac.to_string m))
  = Mac.oui_colon m.
Proof.
  unfold MobilePhoneDetector.get_oui, Mac.to_string. mac_text. reflexivity.
Qed.

Lemma is_randomized_mac_bit (m : Mac.t) :
  MobilePhoneDetector._is_randomized_mac (Mac.to_string m) = Mac.locally_administered m.
Proof.
  unfold MobilePhoneDetector._is_randomized_mac, Mac.to_string.
  rewrite split_head_digits, int16_octet. apply octet_bit.
Qed.

End MacText.

(** ** The detector: the classification cascade *)

Section DetectorCascade.
Import MobilePhoneDetector.
Local Open Scope R_scope.

Lemma is_mobile_device_on_address (st : state) (m : Mac.t) :
  is_mobile_device st (Mac.to_string m)
  = match mobile_ouis !! Mac.oui_colon m with
    | Some vendor => (true, 0.95, Text vendor)
    | None =>
        match infrastructure_ouis !! Mac.oui_colon m with
        | Some vendor => (false, 0.95, Text vendor)
        | None =>
            if Mac.locally_administered m
            then (true, 0.8, Text "Mobile (Randomized MAC)")
            else _analyze_unknown_device st (Mac.to_string m)
        end
    end.
Proof.
  unfold is_mobile_device. cbv zeta.
  now rewrite format_get_oui, is_randomized_mac_bit.
Qed.

(** C5: on the text of any MAC address [is_mobile_device] answers from the
    mobile table when the OUI is a key of it, else from the infrastructure
    table when the OUI is a key of that one, and looks at bit [0x02] of the
    first octet only when neither table has the OUI. *)
Theorem is_mobile_device_cascade (st : state) (m : Mac.t) :
  is_mobile_device st (Mac.to_string m)
  = match mobile_ouis !! Mac.oui_colon m with
    | Some vendor => (true, 0.95, Text vendor)
    | None =>
        match infrastructure_ouis !! Mac.oui_colon m with
        | Some vendor => (false, 0.95, Text vendor)
        | None =>
            if Z.testbit (Mac.first_octet m) 1
            then (true, 0.8, Text "Mobile (Randomized MAC)")
            else _analyze_unknown_device st (Mac.to_string m)
        end
    end.
Proof.
  unfold is_mobile_device. cbv zeta.
  rewrite format_get_oui, is_randomized_mac_bit. reflexivity.
Qed.

(** The three outcomes on addresses of the module: a listed handset, a
    listed infrastructure prefix whose first octet has bit [0x02] set, and
    an unlisted address with that bit. *)
Example cascade_samples (st : state) :
  is_mobile_device st "3C:2E:FF:12:34:56" = (true, 0.95, Text "Apple iPhone")
  /\ is_mobile_device st "02:00:00:12:34:56" = (false, 0.95, Text "Private/Random MAC")
  /\ is_mobile_device st "A2:11:22:33:44:55" = (true, 0.8, Text "Mobile (Randomized MAC)").
Proof.
  split; [| split].
  - exact (is_mobile_device_on_address st
             (Mac.Make Byte.x3c Byte.x2e Byte.xff Byte.x12 Byte.x34 Byte.x56)).
  - exact (is_mobile_device_on_address st
             (Mac.Make Byte.x02 Byte.x00 Byte.x00 Byte.x12 Byte.x34 Byte.x56)).
  - exact (is_mobile_device_on_address st
             (Mac.Make Byte.xa2 Byte.x11 Byte.x22 Byte.x33 Byte.x44 Byte.x55)).
Qed.

(** Text with dashes reaches the table lookup through [get_oui], but its
    first field is not a base-16 literal, so bit [0x02] is not seen. *)
Example dash_separated_sample :
  is_mobile_device init "A2-11-22-33-44-55"
  = (false, 0.3, Text "Unknown Device (Need More Data)").
Proof. vm_compute. reflexivity. Qed.

(** The behavioural step in any state, on what the state stores: for an
    address in neither table and without bit [0x02], no record gives
    [(False, 0.3, "Unknown Device (Need More Data)")]; a record gives the
    confidence from its stored pattern and its stored score. *)
Lemma unknown_oui_classification (st : state) (m : Mac.t) :
  mobile_ouis !! Mac.oui_colon m = None ->
  infrastructure_ouis !! Mac.oui_colon m = None ->
  Mac.locally_administered m = false ->
  match device_history st !! Mac.to_string m with
  | None =>
      is_mobile_device st (Mac.to_string m)
      = (false, 0.3, Text "Unknown Device (Need More Data)")
  | Some device =>
      let stdDev := _calculate_signal_variance (signal_pattern device) in
      let c := 0.6 * Rmin (stdDev / 10) 1.0 + 0.4 * behavior_score device in
      (is_mobile_device st (Mac.to_string m)).1.2 = c
      /\ ((is_mobile_device st (Mac.to_string m)).1.1 = true <-> c > 0.7)
  end.
Proof.
  intros Hm Hi Hbit. rewrite is_mobile_device_on_address, Hm, Hi, Hbit.
  unfold _analyze_unknown_device.
  destruct (device_history st !! Mac.to_string m) as [device |]; [| reflexivity].
  cbv zeta. unfold signal_variance_threshold, min_confidence_score.
  set (mv := Rmin (_calculate_signal_variance (signal_pattern device) / 10) 1.0).
  cbn [fst snd]. split; [lra |].
  destruct (Rlt_dec 0.7 (mv * 0.6 + behavior_score device * 0.4)) as [Hlt | Hge].
  - split; [intros _; lra | reflexivity].
  - split; [discriminate | intros Hc; exfalso; apply Hge; lra].
Qed.

End DetectorCascade.

(** ** The tracker: the randomization detector and registration *)

Section RandomizationDetector.
Import SmartMACTracker.

Lemma indicator_bit (b : Byte.byte) (rest : string) :
  (index 1 (Mac.digits b rest) ≫= λ c, int16 (String c EmptyString) ≫= λ v,
   Ok (negb (Z.land v 2 =? 0)%Z))
  = Ok (Z.testbit (Mac.octet_value b) 1).
Proof. exact (int16_lo_bit b). Qed.

Lemma indicator_common (b : Byte.byte) (rest : string) :
  startswith_any ["02"; "06"; "0A"; "0E"] (Mac.digits b rest)
  = existsb (Z.eqb (Mac.octet_value b)) [0x02; 0x06; 0x0A; 0x0E]%Z.
Proof. unfold Mac.digits. rewrite first_digits_in. destruct b; reflexivity. Qed.

Lemma indicator_apple (b : Byte.byte) (rest : string) :
  startswith_any ["DA"; "DE"; "D6"; "D2"] (Mac.digits b rest)
  = existsb (Z.eqb (Mac.octet_value b)) [0xDA; 0xDE; 0xD6; 0xD2]%Z.
Proof. unfold Mac.digits. rewrite first_digits_in. destruct b; reflexivity. Qed.

Lemma indicator_unlisted (m : Mac.t) (rest : string) :
  _analyze_randomness
    (Mac.digits (Mac.o1 m) (Mac.digits (Mac.o2 m) (Mac.digits (Mac.o3 m) rest)))
  = oui_unlisted m.
Proof.
  unfold _analyze_randomness, oui_unlisted.
  change (take_str 6 _) with (Mac.oui_plain m).
  now destruct (negb _).
Qed.

Lemma detect_randomized_mac_flagged (m : Mac.t) :
  detect_randomized_mac (Mac.to_string m) = Ok (flagged m).
Proof.
  unfold detect_randomized_mac. cbv zeta. rewrite clean_to_string.
  unfold randomized_indicators. cbn [any_of].
  rewrite indicator_bit, indicator_common, indicator_apple, indicator_unlisted.
  unfold flagged, Mac.locally_administered, first_octet_in, Mac.first_octet.
  destruct (Z.testbit _ 1); [reflexivity |].
  cbn [mbind outcome_bind orb].
  destruct (existsb _ [0x02; 0x06; 0x0A; 0x0E]%Z); [reflexivity |].
  destruct (existsb _ [0xDA; 0xDE; 0xD6; 0xD2]%Z); [reflexivity |].
  cbn [mbind outcome_bind orb].
  now destruct (oui_unlisted m).
Qed.

(** C9: for every MAC address [register_user] stores the entry, with
    [is_randomized] as the detector computes it at that moment, and returns
    [False] exactly when the detector flags the address; the detector's
    verdict is the disjunction of its four signals. *)
Theorem register_user_stores_and_flags (st : state) (now : Z) (name : string) (m : Mac.t) :
  let mac := Mac.to_string m in
  let entry := User.Make name now [mac] (flagged m) in
  detect_randomized_mac mac
  = Ok (Mac.locally_administered m
        || first_octet_in m [0x02; 0x06; 0x0A; 0x0E]%Z
        || first_octet_in m [0xDA; 0xDE; 0xD6; 0xD2]%Z
        || oui_unlisted m)
  /\ register_user st now name mac = (set_user st mac entry, negb (flagged m))
  /\ dict_get mac (known_users (register_user st now name mac).1) = Some entry
  /\ ((register_user st now name mac).2 = false <-> flagged m = true).
Proof.
  intros mac entry. subst mac entry.
  pose proof (detect_randomized_mac_flagged m) as Hd.
  rewrite (register_user_known _ _ _ _ _ Hd).
  split; [exact Hd |]. split; [reflexivity |]. split.
  - cbn. apply dict_get_set_eq.
  - cbn. destruct (flagged m); split; intros H; try reflexivity; discriminate H.
Qed.

(** The example of the specification: [DA:0E:14:12:34:56] is refused and
    stored as randomized, although its OUI is in the manufacturer table. *)
Example register_DA0E14 :
  register_user init 0 "Glenn" "DA:0E:14:12:34:56"
  = (set_user init "DA:0E:14:12:34:56"
       (User.Make "Glenn" 0 ["DA:0E:14:12:34:56"] true), false).
Proof. vm_compute. reflexivity. Qed.

End RandomizationDetector.

(** ** The tracker on text that is not a MAC address *)

Section Unvalidated.
Import SmartMACTracker.

Ltac by_char c := destruct c as [[] [] [] [] [] [] [] []]; try discriminate; eauto.

Lemma int16_hex_char (c : ascii) :
  Mac.is_hex c = true -> exists v, int16 (String c EmptyString) = Ok v.
Proof. by_char c. Qed.

Lemma int16_other_char (c : ascii) :
  Mac.is_hex c = false -> int16 (String c EmptyString) = Raise ValueError.
Proof. by_char c. Qed.

Lemma hex_not_colon (c : ascii) : Mac.is_hex c = true -> Ascii.eqb ":" c = false.
Proof. by_char c. Qed.

Lemma hex_upper (c : ascii) : Mac.is_hex c = true -> Mac.is_hex (upper_char c) = true.
Proof. by_char c. Qed.

(** The detector returns a verdict exactly when the second character of
    the cleaned text is a hexadecimal digit. *)
Lemma detect_returns (mac : string) (c : ascii) :
  String.get 1 (upper (remove_char ":" mac)) = Some c -> Mac.is_hex c = true ->
  exists b, detect_randomized_mac mac = Ok b.
Proof.
  intros Hget Hhex. unfold detect_randomized_mac, randomized_indicators. cbv zeta.
  cbn [any_of]. unfold index. rewrite Hget.
  destruct (int16_hex_char c Hhex) as [v Hv].
  cbn [mbind outcome_bind]. rewrite Hv.
  cbn [mbind outcome_bind].
  destruct (negb _); [eauto |].
  destruct (startswith_any _ _); [eauto |].
  destruct (startswith_any _ _); [eauto |].
  cbn [mbind outcome_bind]. destruct (_analyze_randomness _); eauto.
Qed.

Lemma detect_raises_index (mac : string) :
  String.get 1 (upper (remove_char ":" mac)) = None ->
  detect_randomized_mac mac = Raise IndexError.
Proof.
  intros Hget. unfold detect_randomized_mac, randomized_indicators. cbv zeta.
  cbn [any_of]. unfold index. now rewrite Hget.
Qed.

Lemma detect_raises_value (mac : string) (c : ascii) :
  String.get 1 (upper (remove_char ":" mac)) = Some c -> Mac.is_hex c = false ->
  detect_randomized_mac mac = Raise ValueError.
Proof.
  intros Hget Hhex. unfold detect_randomized_mac, randomized_indicators. cbv zeta.
  cbn [any_of]. unfold index. rewrite Hget.
  cbn [mbind outcome_bind]. now rewrite (int16_other_char c Hhex).
Qed.

(** Every well-formed address has such a second digit. *)
Lemma well_formed_second_digit (mac : string) :
  Mac.well_formed mac = true ->
  exists c, String.get 1 (upper (remove_char ":" mac)) = Some c /\ Mac.is_hex c = true.
Proof.
  unfold Mac.well_formed.
  destruct mac as [| a [| b rest]]; try discriminate.
  cbn [Mac.pairs_colon].
  destruct rest as [| c rest]; [discriminate |].
  destruct (Ascii.eqb_spec c ":") as [-> | Hc].
  2:{ destruct c as [[] [] [] [] [] [] [] []]; try discriminate; exfalso; now apply Hc. }
  intros H. apply andb_prop in H as [H _]. apply andb_prop in H as [Ha Hb].
  cbn [remove_char]. rewrite (hex_not_colon a Ha), (hex_not_colon b Hb).
  cbn [upper String.get]. exists (upper_char b). split; [reflexivity | now apply hex_upper].
Qed.

(** Registration on text: a well-formed address, in either case, is
    stored with the detector's verdict; text on which the detector raises is
    not stored and [False] is returned. *)
Lemma register_user_well_formed (st : state) (now : Z) (name mac : string) :
  Mac.well_formed mac = true ->
  exists b, detect_randomized_mac mac = Ok b
            /\ register_user st now name mac
               = (set_user st mac (User.Make name now [mac] b), negb b).
Proof.
  intros Hwf. destruct (well_formed_second_digit mac Hwf) as (c & Hget & Hhex).
  destruct (detect_returns mac c Hget Hhex) as [b Hb].
  exists b. split; [exact Hb | now apply register_user_known].
Qed.

Lemma register_user_raising (st : state) (now : Z) (name mac : string) (e : exc) :
  detect_randomized_mac mac = Raise e -> register_user st now name mac = (st, false).
Proof. intros H. unfold register_user. now rewrite H. Qed.



End Unvalidated.



(** * Further properties of the tracker *)

Section TrackerFurther.
Import SmartMACTracker.

Lemma dict_set_length {V : Type} (k : string) (v : V) (d : list (string * V)) :
  length (dict_set k v d)
  = match dict_get k d with
    | Some _ => length d
    | None => S (length d)
    end.
Proof.
  induction d as [| [k' v'] d IH]; cbn [dict_set dict_get]; [reflexivity |].
  destruct (String.eqb k k'); [reflexivity |].
  cbn [length]. rewrite IH. now destruct (dict_get k d).
Qed.

Lemma find_exact_or_none (st : state) (fp : DeviceFingerprint) :
  find_potential_user_match st fp
  = User.name <$> dict_get (current_mac fp) (known_users st).
Proof.
  unfold find_potential_user_match.
  destruct (dict_get (current_mac fp) (known_users st)); [reflexivity |].
  now rewrite match_loop_none.
Qed.

(** X1: registration followed by tracking, for every MAC address: the
    registered name comes back, [is_randomized] is the detector's verdict on
    the octets, and the confidence is [1.0] exactly when the name is not
    empty and the address is not flagged. *)
Theorem register_then_track (st : state) (t0 t1 : Z) (name : string) (m : Mac.t)
    (signal : Z) (node_id : string) (caps : option (list (string * string))) :
  let mac := Mac.to_string m in
  let st1 := (register_user st t0 name mac).1 in
  exists r : Result.t,
    (track_device st1 t1 mac signal node_id caps).2 = Ok r
    /\ Result.identified_user r = Some name
    /\ Result.is_randomized r = flagged m
    /\ Result.confidence r = (if flagged m then 0.5 else if name is "" then 0.5 else 1.0)%Q.
Proof.
  intros mac st1. subst mac st1.
  pose proof (detect_randomized_mac_flagged m) as Hd.
  rewrite (register_user_known _ _ _ _ _ Hd).
  rewrite track_device_unfold. cbv zeta. rewrite Hd.
  eexists. split; [reflexivity |].
  cbn [Result.identified_user Result.is_randomized Result.confidence].
  rewrite find_exact_or_none. cbn [fst snd known_users set_user current_mac create_device_fingerprint].
  rewrite dict_get_set_eq. cbn [fmap option_fmap option_map User.name truthy].
  split; [reflexivity |]. split; [reflexivity |].
  destruct (flagged m), name; reflexivity.
Qed.

(** X2: whatever [track_device] returns, the identified user is the name
    registered under exactly the text that was tracked, and nobody if that
    text has no entry; the confidence is [1.0] when such an entry has a
    non-empty name and the detector does not flag the text, and [0.5]
    otherwise. *)
Theorem track_device_exact_only (st : state) (now : Z) (mac : string) (signal : Z)
    (node_id : string) (caps : option (list (string * string))) (r : Result.t) :
  (track_device st now mac signal node_id caps).2 = Ok r ->
  Result.identified_user r = User.name <$> dict_get mac (known_users st)
  /\ detect_randomized_mac mac = Ok (Result.is_randomized r)
  /\ Result.confidence r
     = (match dict_get mac (known_users st) with
        | Some u =>
            if Result.is_randomized r then 0.5
            else if User.name u is "" then 0.5 else 1.0
        | None => 0.5
        end)%Q.
Proof.
  rewrite track_device_unfold. cbv zeta. cbn [snd].
  destruct (detect_randomized_mac mac) as [b | e]; [| discriminate].
  cbn [mbind outcome_bind]. intros [= <-].
  cbn [Result.identified_user Result.is_randomized Result.confidence].
  rewrite find_exact_or_none.
  cbn [fst snd known_users current_mac create_device_fingerprint].
  split; [reflexivity |]. split; [reflexivity |].
  destruct (dict_get mac (known_users st)) as [u |]; cbn [fmap option_fmap option_map truthy].
  - destruct b, (User.name u); reflexivity.
  - reflexivity.
Qed.

(** X3: what [track_device] does with the exception of the detector, on
    ASCII text: the sample is recorded in every case; [IndexError] leaves
    when the text, colons removed, has fewer than two characters,
    [ValueError] when its second character is not a hexadecimal digit, and
    a result is returned otherwise. *)
Theorem track_device_errors (st : state) (now : Z) (mac : string) (signal : Z)
    (node_id : string) (caps : option (list (string * string))) :
  ascii_text mac = true ->
  let out := track_device st now mac signal node_id caps in
  tracker_history out.1 mac
  = lastn 50 (tracker_history st mac ++ [Entry.Make signal node_id now])
  /\ match String.get 1 (upper (remove_char ":" mac)) with
     | None => out.2 = Raise IndexError
     | Some c =>
         if Mac.is_hex c then exists r, out.2 = Ok r else out.2 = Raise ValueError
     end.
Proof.
  intros _ out. subst out. rewrite track_device_unfold. cbv zeta. cbn [fst snd].
  split.
  - pose proof (tracker_history_step st (Build_observation now mac signal node_id) mac caps)
      as H.
    cbn [obs_time obs_mac obs_signal obs_node] in H.
    destruct (decide (mac = mac)) as [_ | Hne]; [exact H | congruence].
  - destruct (String.get 1 (upper (remove_char ":" mac))) as [c |] eqn:Hget.
    + destruct (Mac.is_hex c) eqn:Hhex.
      * destruct (detect_returns mac c Hget Hhex) as [b Hb]. rewrite Hb.
        cbn [mbind outcome_bind]. eauto.
      * now rewrite (detect_raises_value mac c Hget Hhex).
    + now rewrite (detect_raises_index mac Hget).
Qed.

(** X4: what [register_user] does with the exception of the detector: on the
    same two kinds of text nothing is stored and [False] is returned;
    otherwise the entry is stored under the text as given, other entries
    are untouched, the registry grows by one entry only for a new key, and
    [False] is returned exactly for a flagged text. *)
Theorem register_user_outcomes (st : state) (now : Z) (name mac : string) :
  let out := register_user st now name mac in
  mac_history out.1 = mac_history st
  /\ match detect_randomized_mac mac with
     | Raise _ => out = (st, false)
     | Ok b =>
         out.2 = negb b
         /\ (forall k : string,
               dict_get k (known_users out.1)
               = if decide (mac = k) then Some (User.Make name now [mac] b)
                 else dict_get k (known_users st))
         /\ length (known_users out.1)
            = (if dict_get mac (known_users st) is Some _
               then length (known_users st) else S (length (known_users st)))
     end.
Proof.
  intros out. subst out.
  destruct (detect_randomized_mac mac) as [b | e] eqn:Hd.
  - rewrite (register_user_known _ _ _ _ _ Hd). cbn [fst snd set_user mac_history known_users].
    split; [reflexivity |]. split; [reflexivity |]. split.
    + intros k. destruct (decide (mac = k)) as [<- | Hne].
      * apply dict_get_set_eq.
      * now apply dict_get_set_ne.
    + apply dict_set_length.
  - rewrite (register_user_raising _ _ _ _ _ Hd). split; reflexivity.
Qed.

End TrackerFurther.

(** The hypothesis of [track_device_errors] at a text of letters that
    are not hexadecimal digits. *)
Lemma track_device_errors_witness :
  ascii_text "GG:HH:II:JJ:KK:LL" = true
  /\ tracker_history
       (SmartMACTracker.track_device SmartMACTracker.init 0 "GG:HH:II:JJ:KK:LL" (-45)
          "node_001" None).1 "GG:HH:II:JJ:KK:LL"
     = [SmartMACTracker.Entry.Make (-45) "node_001" 0]
  /\ (SmartMACTracker.track_device SmartMACTracker.init 0 "GG:HH:II:JJ:KK:LL" (-45)
        "node_001" None).2 = Raise ValueError.
Proof.
  assert (H : ascii_text "GG:HH:II:JJ:KK:LL" = true) by reflexivity.
  split; [exact H |].
  exact (track_device_errors SmartMACTracker.init 0 "GG:HH:II:JJ:KK:LL" (-45)
           "node_001" None H).
Defined.

(** The hypothesis of [track_device_exact_only] at a listed Apple address
    registered before. *)
Lemma track_device_exact_only_witness :
  let st := (SmartMACTracker.register_user SmartMACTracker.init 0 "Glenn"
               "00:1E:C2:12:34:56").1 in
  exists r : SmartMACTracker.Result.t,
    (SmartMACTracker.track_device st 1 "00:1E:C2:12:34:56" (-45) "node_001" None).2 = Ok r
    /\ SmartMACTracker.Result.identified_user r = Some "Glenn"
    /\ SmartMACTracker.Result.confidence r = 1.0%Q.
Proof.
  intros st.
  assert (H : exists r, (SmartMACTracker.track_device st 1 "00:1E:C2:12:34:56" (-45)
                           "node_001" None).2 = Ok r)
    by (eexists; vm_compute; reflexivity).
  destruct H as [r Hr]. exists r. split; [exact Hr |].
  destruct (track_device_exact_only st 1 "00:1E:C2:12:34:56" (-45) "node_001" None r Hr)
    as (Hu & Hd & Hc).
  split; [exact Hu |].
  assert (Hf : SmartMACTracker.detect_randomized_mac "00:1E:C2:12:34:56" = Ok false)
    by (vm_compute; reflexivity).
  rewrite Hf in Hd. injection Hd as Hd.
  rewrite Hc, <- Hd. reflexivity.
Defined.

Section DetectorVerdict.
Import SmartMACTracker.

Ltac by_char c := destruct c as [[] [] [] [] [] [] [] []]; reflexivity.

Lemma upper_char_idem (c : ascii) : upper_char (upper_char c) = upper_char c.
Proof. by_char c. Qed.

Lemma colon_upper_char (c : ascii) : Ascii.eqb ":" (upper_char c) = Ascii.eqb ":" c.
Proof. by_char c. Qed.

Lemma upper_idem (s : string) : upper (upper s) = upper s.
Proof. induction s as [| c s IH]; cbn [upper]; [reflexivity |]. now rewrite upper_char_idem, IH. Qed.

Lemma remove_colon_upper (s : string) :
  remove_char ":" (upper s) = upper (remove_char ":" s).
Proof.
  induction s as [| c s IH]; cbn [upper remove_char]; [reflexivity |].
  rewrite colon_upper_char. destruct (Ascii.eqb ":" c); [exact IH |].
  cbn [upper]. now rewrite IH.
Qed.

Lemma remove_char_idem (c : ascii) (s : string) :
  remove_char c (remove_char c s) = remove_char c s.
Proof.
  induction s as [| d s IH]; cbn [remove_char]; [reflexivity |].
  destruct (Ascii.eqb c d) eqn:E; [exact IH |].
  cbn [remove_char]. now rewrite E, IH.
Qed.

Lemma take_str_upper (n : nat) (s : string) : take_str n (upper s) = upper (take_str n s).
Proof.
  revert s. induction n as [| n IH]; intros [| c s]; cbn [take_str upper]; try reflexivity.
  now rewrite IH.
Qed.

(** X5: the detector's verdict and the vendor guess read the text without
    its colons and in upper case: writing an address in lower case or
    without colons changes neither. *)
Theorem verdict_ignores_case_and_colons (mac : string) :
  detect_randomized_mac (upper mac) = detect_randomized_mac mac
  /\ detect_randomized_mac (remove_char ":" mac) = detect_randomized_mac mac
  /\ _get_vendor_info (upper mac) = _get_vendor_info mac
  /\ _get_vendor_info (remove_char ":" mac) = _get_vendor_info mac.
Proof.
  unfold detect_randomized_mac, _get_vendor_info. cbv zeta.
  rewrite remove_colon_upper, upper_idem, remove_char_idem.
  rewrite take_str_upper, upper_idem.
  repeat split; reflexivity.
Qed.

Lemma octet_value_digits (b : Byte.byte) :
  Mac.octet_value b
  = match hex_value (Mac.hi b), hex_value (Mac.lo b) with
    | Some h, Some l => (16 * h + l)%Z
    | _, _ => 0%Z
    end.
Proof. destruct b; reflexivity. Qed.

Lemma oui_plain_first (m : Mac.t) (a b : ascii) (rest : string) :
  Mac.oui_plain m = String a (String b rest) ->
  Mac.hi (Mac.o1 m) = a /\ Mac.lo (Mac.o1 m) = b.
Proof. unfold Mac.oui_plain, Mac.digits. intros [= H1 H2 _]. now split. Qed.

Lemma str_in_concat (s : string) (ls : list (list string)) :
  existsb (str_in s) ls = true <-> In s (concat ls).
Proof.
  rewrite existsb_exists, in_concat. split.
  - intros (l & Hl & Hs). exists l. split; [exact Hl |].
    apply existsb_exists in Hs as (x & Hx & Heq). apply String.eqb_eq in Heq. now subst.
  - intros (l & Hl & Hs). exists l. split; [exact Hl |].
    apply existsb_exists. exists s. split; [exact Hs | apply String.eqb_refl].
Qed.

Lemma unflagged_ouis_eq :
  unflagged_ouis
  = ["001EC2"; "0050E4"; "001D4F"; "002608"; "0023DF";
     "001377"; "002566"; "001AA0"; "0021FB"; "F4F5E8"; "3C5AB4"].
Proof. reflexivity. Qed.

Lemma first_signals (m : Mac.t) (a b : ascii) (rest : string) :
  Mac.oui_plain m = String a (String b rest) ->
  Mac.locally_administered m
  || first_octet_in m [0x02; 0x06; 0x0A; 0x0E]%Z
  || first_octet_in m [0xDA; 0xDE; 0xD6; 0xD2]%Z
  = let v := match hex_value a, hex_value b with
             | Some h, Some l => (16 * h + l)%Z
             | _, _ => 0%Z
             end in
    Z.testbit v 1 || existsb (Z.eqb v) [0x02; 0x06; 0x0A; 0x0E]%Z
    || existsb (Z.eqb v) [0xDA; 0xDE; 0xD6; 0xD2]%Z.
Proof.
  intros H. apply oui_plain_first in H as [<- <-].
  unfold Mac.locally_administered, first_octet_in, Mac.first_octet.
  now rewrite octet_value_digits.
Qed.

(** X6: the addresses the detector does not flag are exactly those whose OUI
    is one of the eleven entries of [known_ouis] other than [DA0E14]; the
    Google entry [DA0E14] is always flagged, by its first octet. *)
Theorem unflagged_iff_listed (m : Mac.t) :
  detect_randomized_mac (Mac.to_string m) = Ok false
  <-> In (Mac.oui_plain m)
         ["001EC2"; "0050E4"; "001D4F"; "002608"; "0023DF";
          "001377"; "002566"; "001AA0"; "0021FB"; "F4F5E8"; "3C5AB4"].
Proof.
  rewrite detect_randomized_mac_flagged, <- unflagged_ouis_eq.
  unfold unflagged_ouis. rewrite List.filter_In, <- str_in_concat.
  unfold flagged. fold (oui_unlisted m).
  split.
  - intros H.
    apply (f_equal (fun o => match o with Ok b => b | Raise _ => true end)) in H.
    cbv beta iota in H. apply orb_false_elim in H as [H3 Hu].
    unfold oui_unlisted in Hu. apply negb_false_iff in Hu.
    split; [exact Hu |].
    apply negb_true_iff. destruct (String.eqb_spec (Mac.oui_plain m) "DA0E14") as [E |]; [| reflexivity].
    rewrite (first_signals m _ _ _ E) in H3. discriminate H3.
  - intros [Hu Hne].
    assert (H3 : Mac.locally_administered m
                 || first_octet_in m [0x02; 0x06; 0x0A; 0x0E]%Z
                 || first_octet_in m [0xDA; 0xDE; 0xD6; 0xD2]%Z = false).
    { pose proof Hu as Hin. apply str_in_concat in Hin.
      cbn [known_ouis map snd concat app In] in Hin.
      repeat (destruct Hin as [Hin | Hin];
              [ symmetry in Hin;
                first [ now rewrite (first_signals m _ _ _ Hin)
                      | rewrite Hin in Hne; discriminate Hne ] |]).
      destruct Hin. }
    rewrite H3. unfold oui_unlisted. now rewrite Hu.
Qed.

End DetectorVerdict.

Section Fingerprint.
Import SmartMACTracker.

Lemma lastn_lastn {A : Type} (n k : nat) (l : list A) :
  (n <= k)%nat -> lastn n (lastn k l) = lastn n l.
Proof.
  intros H. unfold lastn at 1. rewrite lastn_length. unfold lastn.
  rewrite drop_drop. f_equal. lia.
Qed.

Lemma map_lastn {A B : Type} (f : A -> B) (n : nat) (l : list A) :
  map f (lastn n l) = lastn n (map f l).
Proof. unfold lastn. now rewrite length_map, skipn_map. Qed.

Lemma lastn_snoc {A : Type} (n : nat) (l : list A) (x : A) :
  lastn (S n) (l ++ [x]) = lastn n l ++ [x].
Proof.
  unfold lastn. rewrite length_app. cbn [length].
  replace (length l + 1 - S n)%nat with (length l - n)%nat by lia.
  apply drop_app_le. lia.
Qed.

Lemma fingerprint_of_history (st : state) (now : Z) (mac : string) (signal : Z)
    (node_id : string) (caps : option (list (string * string))) :
  let fp := (create_device_fingerprint st now mac signal node_id caps).2 in
  let h := lastn 50 (tracker_history st mac ++ [Entry.Make signal node_id now]) in
  signal_pattern fp = map Entry.signal (lastn 10 h)
  /\ movement_pattern fp = map Entry.node (lastn 5 h).
Proof.
  unfold create_device_fingerprint, tracker_history. cbn [snd signal_pattern movement_pattern].
  destruct (50 <? _)%nat eqn:E; [split; reflexivity |].
  apply Nat.ltb_ge in E. rewrite (lastn_all 50) by exact E. split; reflexivity.
Qed.

(** X7: the fingerprint built for a MAC after any sequence of records holds
    the ten most recent signals and the five most recent nodes of that MAC,
    oldest first, the current observation last. *)
Theorem fingerprint_patterns (evs : list observation) (now : Z) (mac : string)
    (signal : Z) (node_id : string) (caps : option (list (string * string))) :
  let st := tracker_record_all init evs in
  let fp := (create_device_fingerprint st now mac signal node_id caps).2 in
  signal_pattern fp = lastn 10 (map obs_signal (events_of mac evs) ++ [signal])
  /\ movement_pattern fp = lastn 5 (map obs_node (events_of mac evs) ++ [node_id])
  /\ List.last (signal_pattern fp) 0%Z = signal
  /\ List.last (movement_pattern fp) "" = node_id
  /\ (1 <= length (signal_pattern fp) <= 10)%nat
  /\ (1 <= length (movement_pattern fp) <= 5)%nat.
Proof.
  intros st fp. subst st fp.
  destruct (fingerprint_of_history (tracker_record_all init evs) now mac signal node_id caps)
    as [Hs Hm].
  cbv zeta in Hs, Hm. rewrite tracker_history_after in Hs, Hm.
  rewrite lastn_snoc_lastn in Hs, Hm by lia.
  rewrite lastn_lastn, map_lastn, map_app, map_map in Hs by lia.
  rewrite lastn_lastn, map_lastn, map_app, map_map in Hm by lia.
  cbn [map] in Hs, Hm.
  change (fun x => Entry.signal (entry_of x)) with obs_signal in Hs.
  change (fun x => Entry.node (entry_of x)) with obs_node in Hm.
  cbn [Entry.signal Entry.node] in Hs, Hm.
  rewrite Hs, Hm. rewrite !lastn_snoc, !last_last, !length_app, !lastn_length.
  cbn [length]. repeat split; lia.
Qed.

End Fingerprint.

Section Similarities.
Import SmartMACTracker.

Lemma zsum_shift (l : list Z) (a : Z) : fold_left Z.add l a = (a + zsum l)%Z.
Proof.
  unfold zsum. revert a. induction l as [| x l IH]; intros a; cbn [fold_left]; [lia |].
  rewrite IH, (IH (0 + x)%Z). lia.
Qed.

Lemma zsum_cons (x : Z) (l : list Z) : zsum (x :: l) = (x + zsum l)%Z.
Proof. unfold zsum at 1. cbn [fold_left]. rewrite zsum_shift. lia. Qed.

Lemma zsum_abs_nonneg {A : Type} (f : A -> Z) (l : list A) :
  (0 <= zsum (map (fun a => Z.abs (f a)) l))%Z.
Proof.
  induction l as [| x l IH]; cbn [map]; [unfold zsum; cbn; lia |].
  rewrite zsum_cons. lia.
Qed.

Lemma trailing_abs_diff_nonneg (p1 p2 : list Z) (n : nat) :
  (0 <= trailing_abs_diff p1 p2 n)%Z.
Proof. unfold trailing_abs_diff. apply zsum_abs_nonneg. Qed.

Lemma trailing_abs_diff_same (p : list Z) (n : nat) : trailing_abs_diff p p n = 0%Z.
Proof.
  unfold trailing_abs_diff. induction (seq 0 n) as [| i l IH]; [reflexivity |].
  cbn [map]. rewrite zsum_cons, IH. lia.
Qed.

(** The value of the similarity on patterns that share at least three
    trailing elements, with the denominator as a positive number. *)
Lemma signal_similarity_value (p1 p2 : list Z) :
  let n := Nat.min (length p1) (length p2) in
  (3 <= n)%nat ->
  exists q : positive,
    Z.pos q = (Z.of_nat n * 100)%Z
    /\ _signal_pattern_similarity p1 p2
       = py_max 0 (1 - inject_Z (trailing_abs_diff p1 p2 n) / inject_Z (Z.pos q))%Q.
Proof.
  intros n Hn.
  destruct (Z.of_nat n * 100)%Z as [| q | q] eqn:Eq; try lia.
  exists q. split; [reflexivity |].
  pose proof (trailing_abs_diff_zip p1 p2) as Hsum. cbv zeta in Hsum. fold n in Hsum.
  unfold _signal_pattern_similarity.
  destruct p1 as [| x p1]; [cbn in n; lia |].
  destruct p2 as [| y p2]; [subst n; rewrite Nat.min_0_r in Hn; lia |].
  cbv beta iota zeta. fold n.
  destruct (n <? 3)%nat eqn:E; [apply Nat.ltb_lt in E; lia |].
  now rewrite Hsum, Eq.
Qed.

Lemma signal_similarity_small (p1 p2 : list Z) :
  (Nat.min (length p1) (length p2) < 3)%nat -> _signal_pattern_similarity p1 p2 = 0%Q.
Proof.
  intros H. unfold _signal_pattern_similarity.
  destruct p1 as [| x p1]; [reflexivity |]. destruct p2 as [| y p2]; [reflexivity |].
  cbv beta iota zeta. apply Nat.ltb_lt in H. now rewrite H.
Qed.

(** X8: the signal-pattern similarity is a number between 0 and 1, and it is
    1 on two copies of a pattern of at least three signals. *)
Theorem signal_similarity_range (p1 p2 : list Z) :
  (0 <= _signal_pattern_similarity p1 p2 <= 1)%Q
  /\ (_signal_pattern_similarity p1 p1 == if (length p1 <? 3)%nat then 0 else 1)%Q.
Proof.
  split.
  - destruct (Nat.lt_ge_cases (Nat.min (length p1) (length p2)) 3) as [Hlt | Hge].
    + rewrite (signal_similarity_small _ _ Hlt). split; discriminate.
    + destruct (signal_similarity_value p1 p2 Hge) as (q & _ & ->).
      pose proof (trailing_abs_diff_nonneg p1 p2 (Nat.min (length p1) (length p2))) as Hd.
      set (d := trailing_abs_diff _ _ _) in *.
      unfold py_max. destruct (Qltb 0 _) eqn:E.
      * split; [apply Qlt_le_weak; now apply Qltb_true |].
        unfold Qle, Qminus, Qplus, Qopp, Qdiv, Qinv, Qmult, inject_Z. simpl. lia.
      * split; discriminate.
  - destruct (length p1 <? 3)%nat eqn:H.
    + apply Nat.ltb_lt in H. rewrite signal_similarity_small by lia. reflexivity.
    + apply Nat.ltb_ge in H.
      assert (Hn : (3 <= Nat.min (length p1) (length p1))%nat) by lia.
      destruct (signal_similarity_value p1 p1 Hn) as (q & _ & ->).
      rewrite trailing_abs_diff_same.
      unfold py_max, Qltb, Qle_bool, Qeq, Qminus, Qplus, Qopp, Qdiv, Qinv, Qmult, inject_Z.
      simpl. lia.
Qed.

(** X9: when [_calculate_similarity_score] credits the signal term: the
    similarity exceeds [0.8] exactly when at least three trailing signals
    are shared and their absolute differences sum to less than 20 per
    element. *)
Theorem signal_term_credit (p1 p2 : list Z) :
  let n := Nat.min (length p1) (length p2) in
  Qltb 0.8 (_signal_pattern_similarity p1 p2) = true
  <-> (3 <= n)%nat /\ (trailing_abs_diff p1 p2 n < 20 * Z.of_nat n)%Z.
Proof.
  intros n. destruct (Nat.lt_ge_cases n 3) as [Hlt | Hge].
  - rewrite (signal_similarity_small _ _ Hlt). split; [discriminate | lia].
  - destruct (signal_similarity_value p1 p2 Hge) as (q & Hq & ->). fold n in Hq |- *.
    set (d := trailing_abs_diff _ _ _) in *.
    split.
    + intros H. split; [exact Hge |]. apply Qltb_true in H. unfold py_max in H.
      destruct (Qltb 0 _) eqn:E.
      * unfold Qlt, Qminus, Qplus, Qopp, Qdiv, Qinv, Qmult, inject_Z in H. simpl in H. lia.
      * vm_compute in H. discriminate.
    + intros [_ H]. unfold Qltb. apply negb_true_iff.
      destruct (Qle_bool _ _) eqn:E; [| reflexivity]. exfalso.
      apply Qle_bool_iff in E. unfold py_max in E.
      destruct (Qltb 0 _) eqn:E'.
      * unfold Qle, Qminus, Qplus, Qopp, Qdiv, Qinv, Qmult, inject_Z in E. simpl in E. lia.
      * apply Qltb_false_le in E'.
        unfold Qle, Qminus, Qplus, Qopp, Qdiv, Qinv, Qmult, inject_Z in E'. simpl in E'. lia.
Qed.

Lemma common_sequences_comm (a b : list string) :
  length (filter (fun ab : string * string => String.eqb ab.1 ab.2 = true) (zip a b))
  = length (filter (fun ab : string * string => String.eqb ab.1 ab.2 = true) (zip b a)).
Proof.
  revert b. induction a as [| x a IH]; intros [| y b]; try reflexivity.
  cbn [zip_with]. rewrite !filter_cons. cbn [fst snd].
  rewrite (String.eqb_sym y x).
  destruct (decide (String.eqb x y = true)); cbn [length]; now rewrite IH.
Qed.

Lemma common_sequences_same (a : list string) :
  filter (fun ab : string * string => String.eqb ab.1 ab.2 = true) (zip a a) = zip a a.
Proof.
  induction a as [| x a IH]; [reflexivity |].
  cbn [zip_with]. rewrite filter_cons. cbn [fst snd].
  destruct (decide (String.eqb x x = true)) as [_ | Hne]; [now rewrite IH |].
  now rewrite String.eqb_refl in Hne.
Qed.

(** X10: the movement-pattern similarity does not depend on the order of its
    arguments, is a number between 0 and 1, and is 1 on two copies of a
    non-empty pattern. *)
Theorem movement_similarity_properties (p1 p2 : list string) :
  _movement_pattern_similarity p1 p2 = _movement_pattern_similarity p2 p1
  /\ (0 <= _movement_pattern_similarity p1 p2 <= 1)%Q
  /\ (_movement_pattern_similarity p1 p1 == if p1 is [] then 0 else 1)%Q.
Proof.
  split; [| split].
  - unfold _movement_pattern_similarity.
    destruct p1 as [| x p1], p2 as [| y p2]; try reflexivity.
    cbv beta iota zeta.
    now rewrite (Nat.max_comm (length (y :: p2))), common_sequences_comm.
  - unfold _movement_pattern_similarity.
    destruct p1 as [| x p1]; [split; discriminate |].
    destruct p2 as [| y p2]; [split; discriminate |].
    cbv beta iota zeta.
    set (c := length (filter _ _)).
    assert (Hc : (c <= Nat.max (length (x :: p1)) (length (y :: p2)))%nat).
    { subst c. etransitivity; [apply length_filter |].
      rewrite length_zip_with, !length_rev. lia. }
    set (t := Nat.max _ _) in *.
    destruct (0 <? t)%nat eqn:E; [| split; discriminate].
    apply Nat.ltb_lt in E.
    destruct (Z.of_nat t) as [| q | q] eqn:Eq; try lia.
    unfold Qle, Qdiv, Qinv, Qmult, inject_Z. simpl. split; lia.
  - unfold _movement_pattern_similarity.
    destruct p1 as [| x p1]; [reflexivity |].
    cbv beta iota zeta. rewrite common_sequences_same, length_zip_with, length_rev.
    rewrite Nat.min_id, Nat.max_id.
    cbn [length Nat.ltb Nat.leb].
    destruct (Z.of_nat (S (length p1))) as [| q | q] eqn:Eq; try lia.
    unfold Qeq, Qdiv, Qinv, Qmult, inject_Z. simpl. lia.
Qed.

End Similarities.

(** * Further properties of the detector *)

Section DetectorHistory.
Import MobilePhoneDetector.
Local Open Scope R_scope.

Lemma detector_lookup_events (evs : list observation) (m : string) :
  device_history (detector_record_all init evs) !! m = None <-> events_of m evs = [].
Proof.
  pose proof (detector_pattern_after evs m) as H. unfold detector_pattern in H.
  destruct (device_history (detector_record_all init evs) !! m), (events_of m evs);
    cbn in H; split; intros; congruence.
Qed.

Lemma behavior_score_bounds (d : DeviceInfo) :
  0.33 <= _calculate_behavior_score d <= 0.83.
Proof.
  unfold _calculate_behavior_score.
  pose proof (movement_score_range (_calculate_signal_variance (signal_pattern d)) 15.0
                (signal_variance_nonneg _)) as H.
  lra.
Qed.

Lemma update_other (st : state) (now : Z) (mac m : string) (signal : Z) (node_id : string) :
  mac <> m ->
  device_history (update_device_history st now mac signal node_id) !! m
  = device_history st !! m.
Proof.
  intros Hne. unfold update_device_history.
  destruct (device_history st !! mac); cbn [device_history]; now rewrite lookup_insert_ne.
Qed.

(** The record kept for a MAC after any sequence of updates: its [mac] is
    its key, [first_seen] is the time of the first update for that MAC,
    [vendor], [device_type] and [confidence] still have their initial
    values, and the stored score belongs to the stored pattern. *)
Lemma detector_record_invariant (evs : list observation) (m : string) :
  match device_history (detector_record_all init evs) !! m, events_of m evs with
  | None, [] => True
  | Some d, e0 :: _ =>
      mac d = m /\ vendor d = "Unknown" /\ device_type d = "Unknown"
      /\ confidence d = 0 /\ first_seen d = obs_time e0 /\ stored_score_ok d
  | _, _ => False
  end.
Proof.
  induction evs as [| e evs IH] using rev_ind; [exact I |].
  unfold detector_record_all. rewrite fold_left_app. cbn [fold_left].
  fold (detector_record_all init evs). rewrite events_of_snoc.
  destruct (decide (obs_mac e = m)) as [<- | Hne].
  - unfold update_device_history.
    destruct (device_history (detector_record_all init evs) !! obs_mac e) as [d |];
      destruct (events_of (obs_mac e) evs) as [| e0 es]; try contradiction;
      cbn [device_history]; rewrite lookup_insert_eq; cbn [app].
    + destruct IH as (H1 & H2 & H3 & H4 & H5 & H6).
      repeat split; try assumption.
      right. cbn [with_behavior_score with_signal_pattern signal_pattern behavior_score].
      split; [| reflexivity].
      rewrite lastn_length, length_app. cbn [length].
      destruct H6 as [[Hl _] | [Hl _]]; lia.
    + cbn [mac vendor device_type confidence first_seen].
      repeat split; try reflexivity; try lra.
      left. cbn [signal_pattern behavior_score length]. split; [reflexivity | lra].
  - rewrite update_other by exact Hne. now rewrite app_nil_r.
Qed.

(** X11: the fields of a stored device that [update_device_history] never
    rewrites: for every MAC that has been observed, the record carries the
    MAC as [mac], the time of its first observation as [first_seen], and
    [vendor], [device_type] and [confidence] as they were created. *)
Theorem detector_record_metadata (evs : list observation) (m : string) (d : DeviceInfo) :
  device_history (detector_record_all init evs) !! m = Some d ->
  mac d = m
  /\ vendor d = "Unknown" /\ device_type d = "Unknown" /\ confidence d = 0
  /\ Some (first_seen d) = obs_time <$> head (events_of m evs).
Proof.
  intros H. pose proof (detector_record_invariant evs m) as Hinv. rewrite H in Hinv.
  destruct (events_of m evs) as [| e0 es]; [contradiction |].
  destruct Hinv as (H1 & H2 & H3 & H4 & H5 & _).
  cbn [head fmap option_fmap option_map]. rewrite H5. repeat split; assumption.
Qed.

Lemma reachable_score_ok (evs : list observation) (m : string) (d : DeviceInfo) :
  device_history (detector_record_all init evs) !! m = Some d -> stored_score_ok d.
Proof.
  intros H. pose proof (detector_record_invariant evs m) as Hinv. rewrite H in Hinv.
  destruct (events_of m evs); [contradiction | apply Hinv].
Qed.

Lemma unknown_confidence_range (d : DeviceInfo) :
  stored_score_ok d ->
  let c := Rmin (_calculate_signal_variance (signal_pattern d) / signal_variance_threshold) 1.0
           * 0.6 + behavior_score d * 0.4 in
  0 <= c <= 0.932.
Proof.
  intros Hok c. subst c.
  pose proof (movement_score_range (_calculate_signal_variance (signal_pattern d)) 10
                (signal_variance_nonneg _)) as Hm.
  unfold signal_variance_threshold.
  assert (Hb : 0 <= behavior_score d <= 0.83).
  { destruct Hok as [[_ ->] | [_ ->]]; [lra |].
    pose proof (behavior_score_bounds d). lra. }
  lra.
Qed.

(** X13: in every state the detector can reach, the confidence that
    [is_mobile_device] returns for any text lies between 0 and 0.95. *)
Theorem confidence_range (evs : list observation) (mac : string) :
  let st := detector_record_all init evs in
  0 <= (is_mobile_device st mac).1.2 <= 0.95.
Proof.
  intros st. unfold is_mobile_device. cbv zeta.
  destruct (mobile_ouis !! _); [cbn; lra |].
  destruct (infrastructure_ouis !! _); [cbn; lra |].
  destruct (_is_randomized_mac mac); [cbn; lra |].
  unfold _analyze_unknown_device.
  destruct (device_history st !! mac) as [d |] eqn:E; [| cbn; lra].
  cbv zeta. cbn [fst snd].
  pose proof (unknown_confidence_range d (reachable_score_ok evs mac d E)) as H.
  cbv zeta in H. lra.
Qed.

End DetectorHistory.

(** The hypothesis of [detector_record_metadata] after three
    observations of one address. *)
Lemma detector_record_metadata_witness :
  let evs := walk "00:11:22:33:44:55" 3 in
  exists d,
    MobilePhoneDetector.device_history
      (detector_record_all MobilePhoneDetector.init evs) !! "00:11:22:33:44:55" = Some d
    /\ MobilePhoneDetector.first_seen d = 1%Z
    /\ MobilePhoneDetector.vendor d = "Unknown".
Proof.
  intros evs.
  destruct (MobilePhoneDetector.device_history
              (detector_record_all MobilePhoneDetector.init evs) !! "00:11:22:33:44:55")
    as [d |] eqn:E.
  - exists d. split; [reflexivity |].
    destruct (detector_record_metadata evs "00:11:22:33:44:55" d E) as (_ & Hv & _ & _ & Hf).
    split; [| exact Hv]. cbn in Hf. now injection Hf.
  - exfalso. vm_compute in E. discriminate E.
Defined.

Section DetectorBehaviour.
Import MobilePhoneDetector.
Local Open Scope R_scope.

Lemma behaviour_threshold (s b : R) :
  0 <= s ->
  b = Rmin (s / 15.0) 1.0 * 0.5 + 0.7 * 0.3 + 0.6 * 0.2 ->
  (0.7 < Rmin (s / 10) 1.0 * 0.6 + b * 0.4 <-> s > 426 / 55).
Proof.
  intros Hs ->. unfold Rmin.
  destruct (Rle_dec (s / 15.0) 1.0), (Rle_dec (s / 10) 1.0); split; intros H; lra.
Qed.

(** X14: in every state the detector can reach, the behavioural step decides
    by one number: an address in neither table and without bit [0x02] is
    classified as mobile exactly when it has a record and the population
    standard deviation of the stored signals exceeds [426/55] (about 7.75
    dBm). *)
Theorem behavioural_classification_threshold (evs : list observation) (m : Mac.t) :
  mobile_ouis !! Mac.oui_colon m = None ->
  infrastructure_ouis !! Mac.oui_colon m = None ->
  Mac.locally_administered m = false ->
  let st := detector_record_all init evs in
  (is_mobile_device st (Mac.to_string m)).1.1 = true
  <-> exists d, device_history st !! Mac.to_string m = Some d
                /\ population_stdev (signal_pattern d) > 426 / 55.
Proof.
  intros Hm Hi Hbit st. rewrite is_mobile_device_on_address, Hm, Hi, Hbit.
  unfold _analyze_unknown_device.
  destruct (device_history st !! Mac.to_string m) as [d |] eqn:E.
  2:{ cbn. split; [discriminate | intros (d & Hd & _); discriminate]. }
  cbv zeta. cbn [fst snd]. unfold signal_variance_threshold, min_confidence_score.
  pose proof (signal_variance_nonneg (signal_pattern d)) as Hs.
  assert (Hiff : 0.7 < Rmin (_calculate_signal_variance (signal_pattern d) / 10) 1.0 * 0.6
                       + behavior_score d * 0.4
                 <-> _calculate_signal_variance (signal_pattern d) > 426 / 55).
  { destruct (reachable_score_ok evs _ d E) as [[Hl Hb] | [_ Hb]].
    - rewrite Hb. unfold _calculate_signal_variance.
      destruct (signal_pattern d) as [| x [| y p]]; try discriminate. cbn [length Nat.ltb Nat.leb].
      assert (Rmin (0 / 10) 1.0 = 0) by (rewrite Rmin_left; lra).
      split; lra.
    - apply behaviour_threshold; [exact Hs | exact Hb]. }
  destruct (Rlt_dec 0.7 _) as [Hlt | Hge].
  - split; [intros _; exists d; split; [reflexivity |] | reflexivity].
    rewrite <- signal_variance_is_population_stdev. now apply Hiff.
  - split; [discriminate |].
    intros (d' & [= <-] & Hd). exfalso.
    rewrite <- signal_variance_is_population_stdev in Hd. apply Hge, Hiff, Hd.
Qed.

(** X15: the first observation of an address in neither table and without bit
    [0x02]: once [update_device_history] has created its record, the
    address is classified as a static device with confidence 0, never as
    "Unknown Device (Need More Data)". *)
Theorem first_sighting_is_static (st : state) (now : Z) (m : Mac.t) (signal : Z)
    (node_id : string) :
  mobile_ouis !! Mac.oui_colon m = None ->
  infrastructure_ouis !! Mac.oui_colon m = None ->
  Mac.locally_administered m = false ->
  device_history st !! Mac.to_string m = None ->
  is_mobile_device (update_device_history st now (Mac.to_string m) signal node_id)
    (Mac.to_string m)
  = (false, 0, Text "Unknown Static Device").
Proof.
  intros Hm Hi Hbit Hnone. rewrite is_mobile_device_on_address, Hm, Hi, Hbit.
  unfold _analyze_unknown_device, update_device_history. rewrite Hnone.
  cbn [device_history]. rewrite lookup_insert_eq. cbv zeta.
  cbn [signal_pattern behavior_score _calculate_signal_variance length Nat.ltb Nat.leb].
  unfold signal_variance_threshold, min_confidence_score.
  assert (Hc : Rmin (0 / 10) 1.0 * 0.6 + 0.0 * 0.4 = 0).
  { assert (Rmin (0 / 10) 1.0 = 0) by (rewrite Rmin_left; lra). lra. }
  rewrite Hc. destruct (Rlt_dec 0.7 0) as [Hlt | _]; [lra | reflexivity].
Qed.

End DetectorBehaviour.

(** The hypotheses of [behavioural_classification_threshold] at
    [00:11:22:33:44:55] after three observations. *)
Lemma behavioural_classification_threshold_witness :
  let m := Mac.Make Byte.x00 Byte.x11 Byte.x22 Byte.x33 Byte.x44 Byte.x55 in
  let st := detector_record_all MobilePhoneDetector.init (walk (Mac.to_string m) 3) in
  MobilePhoneDetector.mobile_ouis !! Mac.oui_colon m = None
  /\ MobilePhoneDetector.infrastructure_ouis !! Mac.oui_colon m = None
  /\ Mac.locally_administered m = false
  /\ ((MobilePhoneDetector.is_mobile_device st (Mac.to_string m)).1.1 = true
      <-> exists d, MobilePhoneDetector.device_history st !! Mac.to_string m = Some d
                    /\ (population_stdev (MobilePhoneDetector.signal_pattern d) > 426 / 55)%R).
Proof.
  intros m st.
  assert (H1 : MobilePhoneDetector.mobile_ouis !! Mac.oui_colon m = None)
    by (vm_compute; reflexivity).
  assert (H2 : MobilePhoneDetector.infrastructure_ouis !! Mac.oui_colon m = None)
    by (vm_compute; reflexivity).
  assert (H3 : Mac.locally_administered m = false) by reflexivity.
  split; [exact H1 |]. split; [exact H2 |]. split; [exact H3 |].
  exact (behavioural_classification_threshold (walk (Mac.to_string m) 3) m H1 H2 H3).
Defined.

(** The hypotheses of [first_sighting_is_static] at [00:11:22:33:44:55]
    in the initial state. *)
Lemma first_sighting_is_static_witness :
  let m := Mac.Make Byte.x00 Byte.x11 Byte.x22 Byte.x33 Byte.x44 Byte.x55 in
  MobilePhoneDetector.mobile_ouis !! Mac.oui_colon m = None
  /\ MobilePhoneDetector.infrastructure_ouis !! Mac.oui_colon m = None
  /\ Mac.locally_administered m = false
  /\ MobilePhoneDetector.device_history MobilePhoneDetector.init !! Mac.to_string m = None
  /\ MobilePhoneDetector.is_mobile_device
       (MobilePhoneDetector.update_device_history MobilePhoneDetector.init 0
          (Mac.to_string m) (-48) "middle") (Mac.to_string m)
     = (false, 0%R, MobilePhoneDetector.Text "Unknown Static Device").
Proof.
  intros m.
  assert (H1 : MobilePhoneDetector.mobile_ouis !! Mac.oui_colon m = None)
    by (vm_compute; reflexivity).
  assert (H2 : MobilePhoneDetector.infrastructure_ouis !! Mac.oui_colon m = None)
    by (vm_compute; reflexivity).
  assert (H3 : Mac.locally_administered m = false) by reflexivity.
  assert (H4 : MobilePhoneDetector.device_history MobilePhoneDetector.init
               !! Mac.to_string m = None) by reflexivity.
  split; [exact H1 |]. split; [exact H2 |]. split; [exact H3 |]. split; [exact H4 |].
  exact (first_sighting_is_static MobilePhoneDetector.init 0 m (-48) "middle" H1 H2 H3 H4).
Defined.

Section Filtering.
Import MobilePhoneDetector.
Local Open Scope R_scope.

Lemma dict_display_lookup_In {V : Type} (items : list (string * V)) (k : string) (v : V) :
  dict_display items !! k = Some v -> In (k, v) items.
Proof.
  induction items as [| [k' v'] items IH] using rev_ind.
  - unfold dict_display. cbn. now rewrite lookup_empty.
  - rewrite dict_display_snoc, in_app_iff. cbn [fst snd In].
    destruct (decide (k' = k)) as [-> | Hne].
    + rewrite lookup_insert_eq. intros [= ->]. right. now left.
    + rewrite lookup_insert_ne by exact Hne. intros H. left. now apply IH.
Qed.

Lemma mobile_labels_have_vendor :
  forallb (fun kv : string * string =>
             match vendor_of (Text kv.2) with
             | Ok w => existsb (String.eqb w) mobile_vendor_words
             | Raise _ => false
             end) mobile_oui_items = true.
Proof. vm_compute. reflexivity. Qed.

Lemma mobile_vendor_ok (k v : string) :
  mobile_ouis !! k = Some v ->
  exists w, vendor_of (Text v) = Ok w /\ In w mobile_vendor_words.
Proof.
  intros H. apply dict_display_lookup_In in H.
  pose proof mobile_labels_have_vendor as Hall.
  rewrite forallb_forall in Hall. specialize (Hall _ H). cbn [snd] in Hall.
  destruct (vendor_of (Text v)) as [w |]; [| discriminate].
  exists w. split; [reflexivity |].
  apply existsb_exists in Hall as (x & Hx & Heq). apply String.eqb_eq in Heq. now subst.
Qed.

(** A mobile classification carries a confidence above [0.7] and a label
    whose first word can be taken. *)
Lemma mobile_result (st : state) (mac : string) (c : R) (lab : label) :
  is_mobile_device st mac = (true, c, lab) ->
  c > 0.7 /\ exists w, vendor_of lab = Ok w /\ In w mobile_vendor_words.
Proof.
  unfold is_mobile_device. cbv zeta.
  destruct (mobile_ouis !! _) as [v |] eqn:Em.
  { intros [= <- <-]. split; [lra | now apply (mobile_vendor_ok _ _ Em)]. }
  destruct (infrastructure_ouis !! _); [discriminate |].
  destruct (_is_randomized_mac mac).
  { intros [= <- <-]. split; [lra |]. exists "Mobile"%string.
    split; [reflexivity | cbn; tauto]. }
  unfold _analyze_unknown_device.
  destruct (device_history st !! mac) as [d |]; [| discriminate].
  cbv zeta. unfold min_confidence_score.
  destruct (Rlt_dec 0.7 _) as [Hlt | _]; [| discriminate].
  intros [= <- <-]. split; [lra |]. exists "Unknown"%string.
  split; [reflexivity | cbn; tauto].
Qed.

Lemma detection_events_cons (now : Z) (d : Detection) (l : list Detection) (mac : string) :
  det_mac d = Some mac ->
  detection_events now (d :: l)
  = Build_observation now mac (default (-50)%Z (det_signal d))
      (default "unknown"%string (det_node d)) :: detection_events now l.
Proof. intros H. unfold detection_events. cbn [omap list_omap]. now rewrite H. Qed.

(** The loop either stops with [KeyError] at an element without the key
    ['mac'], or goes through the whole list. *)
Lemma filter_loop_spec (st : state) (now : Z) (l : list Detection) (acc : list MobileInfo) :
  (exists st', filter_loop st now l acc = (st', Raise KeyError))
  \/ (Forall (fun d => is_Some (det_mac d)) l
      /\ exists out : list MobileInfo,
           filter_loop st now l acc
           = (detector_record_all st (detection_events now l), Ok (acc ++ out))
           /\ sublist (map info_device out) l
           /\ Forall (fun i => info_is_mobile i = true
                               /\ info_confidence i > 0.7
                               /\ In (info_vendor i) mobile_vendor_words
                               /\ info_filter_reason i = "Mobile Device Detected"%string)
                     out).
Proof.
  revert st acc. induction l as [| d l IH]; intros st acc.
  - right. split; [constructor |]. exists []. rewrite app_nil_r. repeat split; constructor.
  - cbn [filter_loop].
    destruct (det_mac d) as [mac |] eqn:Hmac; [| left; eexists; reflexivity].
    rewrite (detection_events_cons now d l mac Hmac).
    unfold detector_record_all. cbn [fold_left obs_time obs_mac obs_signal obs_node].
    set (st' := update_device_history st now mac _ _).
    fold (detector_record_all st' (detection_events now l)).
    destruct (is_mobile_device st' mac) as [[b c] lab] eqn:E.
    destruct b.
    + destruct (mobile_result _ _ _ _ E) as (Hc & w & Hw & Hin). rewrite Hw.
      destruct (IH st' (acc ++ [{| info_device := d; info_is_mobile := true;
                                   info_confidence := c; info_device_type := lab;
                                   info_vendor := w;
                                   info_filter_reason := "Mobile Device Detected" |}]))
        as [[st'' Hraise] | (Hkeys & out & Heq & Hsub & Hall)].
      * left. exists st''. exact Hraise.
      * right. split; [constructor; [rewrite Hmac; eauto | exact Hkeys] |].
        eexists (_ :: out). rewrite Heq, <- app_assoc. cbn [app map info_device].
        split; [reflexivity |]. split; [now apply sublist_skip |].
        constructor; [| exact Hall]. cbn. repeat split; assumption.
    + destruct (IH st' acc) as [[st'' Hraise] | (Hkeys & out & Heq & Hsub & Hall)].
      * left. exists st''. exact Hraise.
      * right. split; [constructor; [rewrite Hmac; eauto | exact Hkeys] |].
        exists out. rewrite Heq.
        split; [reflexivity |]. split; [now apply sublist_cons | exact Hall].
Qed.

(** X16: whenever [filter_mobile_devices] returns a list, every input
    element had the key ['mac'], the history is what one
    [update_device_history] per element leaves, with [-50] and ["unknown"]
    for a missing signal or node, and the list holds input elements in
    their input order, each marked mobile with a confidence above [0.7] and
    a vendor word out of seven. *)
Theorem filter_mobile_devices_spec (st : state) (now : Z) (detected : list Detection)
    (st' : state) (out : list MobileInfo) :
  filter_mobile_devices st now detected = (st', Ok out) ->
  Forall (fun d => is_Some (det_mac d)) detected
  /\ st' = detector_record_all st (detection_events now detected)
  /\ sublist (map info_device out) detected
  /\ (length out <= length detected)%nat
  /\ Forall (fun i => info_is_mobile i = true
                      /\ info_confidence i > 0.7
                      /\ In (info_vendor i) mobile_vendor_words
                      /\ info_filter_reason i = "Mobile Device Detected"%string) out.
Proof.
  unfold filter_mobile_devices. intros H.
  destruct (filter_loop_spec st now detected [])
    as [[st'' Hraise] | (Hkeys & out' & Heq & Hsub & Hall)].
  - rewrite Hraise in H. discriminate H.
  - rewrite Heq in H. cbn [app] in H. injection H as <- <-.
    split; [exact Hkeys |]. split; [reflexivity |]. split; [exact Hsub |].
    split; [| exact Hall].
    apply sublist_length in Hsub. now rewrite length_map in Hsub.
Qed.

(** X17: the numbers of [get_device_stats] fit together: the mobile count is
    at most the number of devices seen, the infrastructure count is their
    non-negative difference, and the efficiency lies between 0 and 1 and is
    0 for an empty history. *)
Theorem device_stats_consistent (st : state) :
  let s := get_device_stats st in
  (mobile_devices s <= total_devices_seen s)%nat
  /\ (0 <= infrastructure_devices s)%Z
  /\ (Z.of_nat (mobile_devices s) + infrastructure_devices s
      = Z.of_nat (total_devices_seen s))%Z
  /\ 0 <= filter_efficiency s <= 1
  /\ (total_devices_seen s = 0%nat -> filter_efficiency s = 0).
Proof.
  intros s. subst s. unfold get_device_stats.
  cbn [mobile_devices total_devices_seen infrastructure_devices filter_efficiency].
  set (mc := length (List.filter _ _)).
  assert (Hle : (mc <= size (device_history st))%nat).
  { subst mc. rewrite <- length_map_to_list. apply List.filter_length_le. }
  set (t := size (device_history st)) in *.
  split; [exact Hle |]. split; [lia |]. split; [lia |]. split.
  - destruct (0 <? t)%nat eqn:E; [| lra].
    apply Nat.ltb_lt in E.
    assert (Ht : 0 < INR t) by (apply lt_0_INR; lia).
    assert (Hm : 0 <= INR mc) by apply pos_INR.
    assert (Hmt : INR mc <= INR t) by (apply le_INR; lia).
    split.
    + apply Rmult_le_pos; [exact Hm | left; now apply Rinv_0_lt_compat].
    + apply (Rmult_le_reg_r (INR t)); [exact Ht |].
      unfold Rdiv. rewrite Rmult_assoc, Rinv_l by lra. lra.
  - intros ->. reflexivity.
Qed.

End Filtering.

Section OuiKey.
Import MobilePhoneDetector.
Local Open Scope R_scope.

Lemma dash_upper_char (c : ascii) : Ascii.eqb "-" (upper_char c) = Ascii.eqb "-" c.
Proof. destruct c as [[] [] [] [] [] [] [] []]; reflexivity. Qed.

Lemma remove_dash_upper (s : string) :
  remove_char "-" (upper s) = upper (remove_char "-" s).
Proof.
  induction s as [| c s IH]; cbn [upper remove_char]; [reflexivity |].
  rewrite dash_upper_char. destruct (Ascii.eqb "-" c); [exact IH |].
  cbn [upper]. now rewrite IH.
Qed.

Lemma remove_char_comm (a b : ascii) (s : string) :
  remove_char a (remove_char b s) = remove_char b (remove_char a s).
Proof.
  induction s as [| c s IH]; cbn [remove_char]; [reflexivity |].
  destruct (Ascii.eqb b c) eqn:Eb, (Ascii.eqb a c) eqn:Ea; cbn [remove_char];
    rewrite ?Ea, ?Eb, ?IH; reflexivity.
Qed.

Lemma take_str_length (n : nat) (s : string) : (String.length (take_str n s) <= n)%nat.
Proof.
  revert s. induction n as [| n IH]; intros [| c s]; cbn [take_str String.length]; try lia.
  specialize (IH s). lia.
Qed.

(** X18: the table key [get_oui] computes does not depend on letter case nor
    on colons or dashes in the text, and has at most six characters. *)
Theorem get_oui_normalises (mac : string) :
  get_oui (upper mac) = get_oui mac
  /\ get_oui (remove_char ":" mac) = get_oui mac
  /\ get_oui (remove_char "-" mac) = get_oui mac
  /\ (String.length (get_oui mac) <= 6)%nat.
Proof.
  unfold get_oui. split; [| split; [| split]].
  - now rewrite upper_idem.
  - now rewrite <- remove_colon_upper, remove_char_idem.
  - now rewrite <- remove_dash_upper, (remove_char_comm ":" "-"), remove_char_idem.
  - apply take_str_length.
Qed.

Lemma split_head_digits_any (b : Byte.byte) (rest : string) :
  split_head ":" (Mac.digits b rest) = Mac.digits b (split_head ":" rest).
Proof. unfold Mac.digits. cbn [split_head]. now rewrite colon_hi, colon_lo. Qed.

Lemma int16_digits_dash (b : Byte.byte) (rest : string) :
  int16 (Mac.digits b (Mac.dash rest)) = Raise ValueError.
Proof. destruct b; reflexivity. Qed.

Lemma format_get_oui_dashed (m : Mac.t) :
  format_oui (get_oui (Mac.to_string_dashed m)) = Mac.oui_colon m.
Proof.
  unfold get_oui, Mac.to_string_dashed.
  repeat first [ rewrite upper_digits | rewrite remove_colon_digits
               | rewrite remove_dash_digits
               | progress change (upper (Mac.dash ?r)) with (Mac.dash (upper r))
               | progress change (remove_char ":" (Mac.dash ?r))
                   with (Mac.dash (remove_char ":" r))
               | progress change (remove_char "-" (Mac.dash ?r))
                   with (remove_char "-" r) ].
  reflexivity.
Qed.

(** X19: an address written with dashes gets the table key of its first three
    octets, so both tables answer for it, but bit [0x02] of its first octet
    is never seen: outside the tables it is always left to the behavioural
    step. *)
Theorem dashed_address_classification (st : state) (m : Mac.t) :
  is_mobile_device st (Mac.to_string_dashed m)
  = match mobile_ouis !! Mac.oui_colon m with
    | Some vendor => (true, 0.95, Text vendor)
    | None =>
        match infrastructure_ouis !! Mac.oui_colon m with
        | Some vendor => (false, 0.95, Text vendor)
        | None => _analyze_unknown_device st (Mac.to_string_dashed m)
        end
    end.
Proof.
  unfold is_mobile_device. cbv zeta. rewrite format_get_oui_dashed.
  assert (H : _is_randomized_mac (Mac.to_string_dashed m) = false).
  { unfold _is_randomized_mac, Mac.to_string_dashed.
    rewrite split_head_digits_any.
    change (split_head ":" (Mac.dash ?r)) with (Mac.dash (split_head ":" r)).
    now rewrite int16_digits_dash. }
  now rewrite H.
Qed.

End OuiKey.

Section StoredScore.
Import MobilePhoneDetector.
Local Open Scope R_scope.

(** X12: the score stored with a device in every state the detector can
    reach: [0.0] while the device has been observed once, and from the
    second observation on the score of the stored pattern,
    [0.5 * min(stdDev / 15.0, 1.0) + 0.3 * 0.7 + 0.2 * 0.6] with the
    population standard deviation, a number above 0.32 and below 0.84. *)
Theorem stored_score_reachable (evs : list observation) (m : string) (d : DeviceInfo) :
  device_history (detector_record_all init evs) !! m = Some d ->
  (length (events_of m evs) = 1%nat /\ behavior_score d = 0)
  \/ ((2 <= length (events_of m evs))%nat
      /\ behavior_score d
         = 0.5 * Rmin (population_stdev (signal_pattern d) / 15.0) 1.0 + 0.3 * 0.7 + 0.2 * 0.6
      /\ 0.32 < behavior_score d < 0.84).
Proof.
  intros H.
  pose proof (reachable_score_ok evs m d H) as Hok.
  pose proof (detector_pattern_after evs m) as Hp. unfold detector_pattern in Hp.
  rewrite H in Hp. cbn [fmap option_fmap option_map] in Hp.
  destruct (events_of m evs) as [| e0 es] eqn:E; [discriminate |].
  assert (Hp' : signal_pattern d = lastn 20 (map obs_signal (e0 :: es))) by congruence.
  assert (Hlen : length (signal_pattern d) = Nat.min 20 (length (e0 :: es)))
    by (rewrite Hp', lastn_length, length_map; reflexivity).
  destruct Hok as [[Hl Hb] | [Hl Hb]].
  - left. split; [| exact Hb]. cbn [length] in Hlen |- *. lia.
  - right. split; [cbn [length] in Hlen |- *; lia |].
    pose proof (behavior_score_bounds d) as Hr. rewrite <- Hb in Hr.
    split; [| lra].
    rewrite Hb, <- signal_variance_is_population_stdev.
    unfold _calculate_behavior_score. lra.
Qed.

End StoredScore.

(** The hypothesis of [stored_score_reachable] after three observations
    of one address. *)
Lemma stored_score_reachable_witness :
  let evs := walk "00:11:22:33:44:55" 3 in
  exists d,
    MobilePhoneDetector.device_history
      (detector_record_all MobilePhoneDetector.init evs) !! "00:11:22:33:44:55" = Some d
    /\ (0.32 < MobilePhoneDetector.behavior_score d < 0.84)%R.
Proof.
  intros evs.
  destruct (MobilePhoneDetector.device_history
              (detector_record_all MobilePhoneDetector.init evs) !! "00:11:22:33:44:55")
    as [d |] eqn:E.
  - exists d. split; [reflexivity |].
    destruct (stored_score_reachable evs "00:11:22:33:44:55" d E)
      as [[Hl _] | (_ & _ & Hr)]; [| exact Hr].
    exfalso. vm_compute in Hl. discriminate Hl.
  - exfalso. vm_compute in E. discriminate E.
Defined.

(** The hypothesis of [filter_mobile_devices_spec] on three elements: a
    listed handset, a listed router, and an unlisted address with bit
    [0x02]. *)
Lemma filter_mobile_devices_spec_witness :
  let detected :=
    [ MobilePhoneDetector.Build_Detection (Some "3C:2E:FF:12:34:56") (Some (-45)%Z)
        (Some "entrance");
      MobilePhoneDetector.Build_Detection (Some "00:00:0C:34:56:78") None None;
      MobilePhoneDetector.Build_Detection (Some "A2:11:22:33:44:55") (Some (-48)%Z)
        (Some "middle") ] in
  exists st' out,
    MobilePhoneDetector.filter_mobile_devices MobilePhoneDetector.init 0 detected
    = (st', Ok out)
    /\ sublist (map MobilePhoneDetector.info_device out) detected
    /\ (length out <= 3)%nat.
Proof.
  intros detected.
  destruct (MobilePhoneDetector.filter_mobile_devices MobilePhoneDetector.init 0 detected)
    as [st' [out | e]] eqn:E.
  - exists st', out. split; [reflexivity |].
    destruct (filter_mobile_devices_spec MobilePhoneDetector.init 0 detected st' out E)
      as (_ & _ & Hsub & Hlen & _).
    split; [exact Hsub | exact Hlen].
  - exfalso. vm_compute in E. discriminate E.
Defined.

(** * The behavioural step on what has been observed *)

Section UnknownOui.
Import MobilePhoneDetector.
Local Open Scope R_scope.

Lemma population_stdev_40_42 : population_stdev [-40; -42]%Z = 1.
Proof.
  unfold population_stdev. cbn [length Nat.ltb Nat.leb].
  rewrite squared_deviations_40_42. cbn [INR].
  replace (2 / (1 + 1)) with 1 by field. apply sqrt_1.
Qed.

Lemma sample_stdev_40_42 : sample_stdev [-40; -42]%Z = sqrt 2.
Proof.
  unfold sample_stdev. cbn [length Nat.ltb Nat.leb Nat.sub].
  rewrite squared_deviations_40_42. cbn [INR]. f_equal. field.
Qed.

Lemma reachable_pattern (evs : list observation) (mac : string) (d : DeviceInfo) :
  device_history (detector_record_all init evs) !! mac = Some d ->
  events_of mac evs <> []
  /\ signal_pattern d = lastn 20 (map obs_signal (events_of mac evs)).
Proof.
  intros H. pose proof (detector_pattern_after evs mac) as Hp.
  unfold detector_pattern in Hp. rewrite H in Hp. cbn [fmap option_fmap option_map] in Hp.
  destruct (events_of mac evs) as [| e0 es]; [discriminate |].
  split; [discriminate | congruence].
Qed.

(** C6, as the code has it: for an address in neither table and without
    bit [0x02], nothing observed gives
    [(False, 0.3, "Unknown Device (Need More Data)")]; after observations
    the confidence is [0.6 * min(stdDev / 10, 1.0) + 0.4 * behaviorScore],
    where [stdDev] is the population standard deviation of the last 20
    signals observed and [behaviorScore] is the stored score, [0.0] after
    one observation and
    [0.5 * min(stdDev / 15.0, 1.0) + 0.3 * 0.7 + 0.2 * 0.6] afterwards; the
    device is mobile exactly when the confidence exceeds [0.7]. *)
Theorem unknown_oui_confidence (evs : list observation) (m : Mac.t) :
  mobile_ouis !! Mac.oui_colon m = None ->
  infrastructure_ouis !! Mac.oui_colon m = None ->
  Mac.locally_administered m = false ->
  let st := detector_record_all init evs in
  let mac := Mac.to_string m in
  match events_of mac evs with
  | [] =>
      is_mobile_device st mac = (false, 0.3, Text "Unknown Device (Need More Data)")
  | e0 :: es =>
      let stdDev := population_stdev (lastn 20 (map obs_signal (e0 :: es))) in
      let behaviorScore :=
        match es with
        | [] => 0
        | _ :: _ => 0.5 * Rmin (stdDev / 15.0) 1.0 + 0.3 * 0.7 + 0.2 * 0.6
        end in
      let c := 0.6 * Rmin (stdDev / 10) 1.0 + 0.4 * behaviorScore in
      (is_mobile_device st mac).1.2 = c
      /\ ((is_mobile_device st mac).1.1 = true <-> c > 0.7)
  end.
Proof.
  intros Hm Hi Hbit st mac.
  pose proof (unknown_oui_classification st m Hm Hi Hbit) as H. fold mac in H.
  destruct (device_history st !! mac) as [d |] eqn:El.
  - destruct (reachable_pattern evs mac d El) as [Hne Hp].
    pose proof (reachable_score_ok evs mac d El) as Hok.
    destruct (events_of mac evs) as [| e0 es]; [congruence |].
    cbv zeta in H |- *.
    rewrite signal_variance_is_population_stdev, Hp in H.
    assert (Hlen : length (signal_pattern d) = Nat.min 20 (S (length es)))
      by (rewrite Hp, lastn_length, length_map; reflexivity).
    assert (Hb : behavior_score d
                 = match es with
                   | [] => 0
                   | _ :: _ =>
                       0.5 * Rmin (population_stdev (lastn 20 (map obs_signal (e0 :: es)))
                                   / 15.0) 1.0 + 0.3 * 0.7 + 0.2 * 0.6
                   end).
    { destruct es as [| e1 es]; cbn [length] in Hlen.
      - destruct Hok as [[_ Hb] | [Hl _]]; [exact Hb | lia].
      - destruct Hok as [[Hl _] | [_ Hb]]; [lia |].
        rewrite Hb. unfold _calculate_behavior_score.
        rewrite signal_variance_is_population_stdev, Hp. lra. }
    rewrite Hb in H. exact H.
  - apply detector_lookup_events in El. unfold mac in El |- *. rewrite El. exact H.
Qed.

(** C6 as stated fails at [00:11:22:33:44:55] on both readings of its
    terms. After the signals [-40, -42] the confidence is not the formula
    with the sample standard deviation ([sqrt 2] where the code works with
    [1]); after the single signal [-40] the confidence is [0], not the
    formula with the behaviour score of the pattern, because the stored
    score is still the initial [0.0]. *)
Lemma unknown_oui_confidence_not_as_stated :
  let m := Mac.Make Byte.x00 Byte.x11 Byte.x22 Byte.x33 Byte.x44 Byte.x55 in
  let mac := Mac.to_string m in
  let once := detector_record_all init [Build_observation 1 mac (-40) "entrance"] in
  let twice := detector_record_all init [Build_observation 1 mac (-40) "entrance";
                                         Build_observation 2 mac (-42) "entrance"] in
  mobile_ouis !! Mac.oui_colon m = None
  /\ infrastructure_ouis !! Mac.oui_colon m = None
  /\ Mac.locally_administered m = false
  /\ (exists d, device_history twice !! mac = Some d
                /\ signal_pattern d = [-40; -42]%Z
                /\ (is_mobile_device twice mac).1.2
                   <> 0.6 * Rmin (sample_stdev (signal_pattern d) / 10) 1.0
                      + 0.4 * behavior_score d)
  /\ (exists d, device_history once !! mac = Some d
                /\ signal_pattern d = [-40]%Z
                /\ (is_mobile_device once mac).1.2 = 0
                /\ (is_mobile_device once mac).1.2
                   <> 0.6 * Rmin (population_stdev (signal_pattern d) / 10) 1.0
                      + 0.4 * _calculate_behavior_score d).
Proof.
  intros m mac once twice.
  assert (Hm : mobile_ouis !! Mac.oui_colon m = None) by (vm_compute; reflexivity).
  assert (Hi : infrastructure_ouis !! Mac.oui_colon m = None) by (vm_compute; reflexivity).
  assert (Hbit : Mac.locally_administered m = false) by reflexivity.
  split; [exact Hm |]. split; [exact Hi |]. split; [exact Hbit |]. split.
  - pose proof (unknown_oui_classification twice m Hm Hi Hbit) as H. fold mac in H.
    destruct (device_history twice !! mac) as [d |] eqn:El.
    2:{ apply detector_lookup_events in El. vm_compute in El. discriminate El. }
    destruct (reachable_pattern _ mac d El) as [_ Hp].
    change (lastn 20 (map obs_signal (events_of mac _))) with [-40; -42]%Z in Hp.
    exists d. split; [reflexivity |]. split; [exact Hp |].
    cbv zeta in H. destruct H as [-> _].
    rewrite signal_variance_is_population_stdev, Hp, population_stdev_40_42,
      sample_stdev_40_42.
    assert (H2 : 1 < sqrt 2) by (rewrite <- sqrt_1 at 1; apply sqrt_lt_1; lra).
    assert (Hc : Rmin (1 / 10) 1.0 = 1 / 10) by (apply Rmin_left; lra).
    assert (Hs : 1 / 10 < Rmin (sqrt 2 / 10) 1.0) by (apply Rmin_glb_lt; lra).
    rewrite Hc. lra.
  - pose proof (unknown_oui_classification once m Hm Hi Hbit) as H. fold mac in H.
    destruct (device_history once !! mac) as [d |] eqn:El.
    2:{ apply detector_lookup_events in El. vm_compute in El. discriminate El. }
    destruct (reachable_pattern _ mac d El) as [_ Hp].
    change (lastn 20 (map obs_signal (events_of mac _))) with [-40]%Z in Hp.
    pose proof (reachable_score_ok _ mac d El) as Hok.
    assert (Hb : behavior_score d = 0).
    { destruct Hok as [[_ Hb] | [Hl _]]; [exact Hb |]. rewrite Hp in Hl. cbn in Hl. lia. }
    exists d. split; [reflexivity |]. split; [exact Hp |].
    cbv zeta in H. destruct H as [-> _].
    rewrite signal_variance_is_population_stdev, Hp, Hb.
    assert (Hz : population_stdev [-40]%Z = 0) by reflexivity.
    rewrite Hz.
    assert (Hc : Rmin (0 / 10) 1.0 = 0) by (rewrite Rmin_left; lra).
    rewrite Hc.
    pose proof (behavior_score_bounds d) as Hs.
    split; lra.
Qed.

End UnknownOui.

(** The hypotheses of [unknown_oui_confidence] at [00:11:22:33:44:55]
    after three observations. *)
Lemma unknown_oui_confidence_witness :
  let m := Mac.Make Byte.x00 Byte.x11 Byte.x22 Byte.x33 Byte.x44 Byte.x55 in
  let evs := walk (Mac.to_string m) 3 in
  let st := detector_record_all MobilePhoneDetector.init evs in
  MobilePhoneDetector.mobile_ouis !! Mac.oui_colon m = None
  /\ MobilePhoneDetector.infrastructure_ouis !! Mac.oui_colon m = None
  /\ Mac.locally_administered m = false
  /\ exists c : R,
       (MobilePhoneDetector.is_mobile_device st (Mac.to_string m)).1.2 = c
       /\ ((MobilePhoneDetector.is_mobile_device st (Mac.to_string m)).1.1 = true
           <-> (c > 0.7)%R).
Proof.
  intros m evs st.
  assert (H1 : MobilePhoneDetector.mobile_ouis !! Mac.oui_colon m = None)
    by (vm_compute; reflexivity).
  assert (H2 : MobilePhoneDetector.infrastructure_ouis !! Mac.oui_colon m = None)
    by (vm_compute; reflexivity).
  assert (H3 : Mac.locally_administered m = false) by reflexivity.
  split; [exact H1 |]. split; [exact H2 |]. split; [exact H3 |].
  pose proof (unknown_oui_confidence evs m H1 H2 H3) as H. cbv zeta in H.
  destruct (events_of (Mac.to_string m) evs) as [| e0 es] eqn:E.
  - exfalso. vm_compute in E. discriminate E.
  - eexists. exact H.
Defined.
